(** * The adaptive benchmark of [week_01_raw_llm_api/hello_llm.py]

    A shallow embedding of the benchmark's orchestration core: the model
    state probe and the warmup ([ModelStateManager]), the timeout policy
    ([AdaptiveTimeoutManager]), the request functions
    ([sync_request_basic], [enhanced_sync_request],
    [enhanced_async_request]), the connection test, the three dispatch
    loops of [main] and the report of [analyze_enhanced_results].

    Conventions of the embedding.
    - A Python [float] (a latency, a clock reading) is a rational of [Q],
      and equalities between computed rationals are stated with [==].  A
      Python [int] is a [Z].  The arithmetic of the functions below is
      exact: it leaves out the rounding of binary64, and with it overflow,
      infinities and nan, so that a figure the program computes (a
      latency, a rate, an average) is the binary64 rounding of the figure
      computed here.  Where a whole number depends on the rounding (the
      seconds that [get_timeout] returns), a second definition,
      [get_timeout_rounded], rounds after every operation with a rounding
      function it is given, and the property is stated of that one.
    - A Python [str] is a [string], one element for each character of the
      str (its code point), so that a slice keeps as many elements as
      Python keeps characters.  The elements of [string] range over the
      first 256 code points: a text with a character beyond them is not
      represented.  The constants of the program (the tags of the report)
      are written as they are in the source and are only compared.
    - The HTTP libraries are outside the repository.  What a call to them
      did is an input of the model: the reply that arrived or the exception
      that was raised, and the readings of [time.perf_counter].
    - Console output ([console.print], the [rich] table layout) is left
      out; every value that is printed is still computed. *)

From Stdlib Require Import ZArith QArith Qround Lia Lqa.
From stdpp Require Import base list strings pretty.

Open Scope Z_scope.
Set Warnings "-register-all".

(** ** Python values and exceptions *)

Module Py.

(** What [response.json()] can return. *)
Inductive json : Type :=
| JNull
| JBool (b : bool)
| JInt (z : Z)
| JFloat (q : Q)
| JStr (s : string)
| JList (l : list json)
| JDict (kvs : list (string * json)).

(** An exception object of a subclass of [Exception]:
    [type(e).__name__], [str(e)], and whether it is an instance of the
    HTTP library's timeout class ([requests.exceptions.Timeout] for
    [requests], [httpx.TimeoutException] for [httpx]). *)
Record pyexn : Type := PyExn {
  exn_name : string;
  exn_str : string;
  exn_is_timeout : bool
}.

(** What can be raised: an [Exception], or [asyncio.CancelledError],
    which derives from [BaseException] only and so passes through
    [except Exception]. *)
Inductive raised : Type :=
| Exception (e : pyexn)
| CancelledError.

Inductive res (A : Type) : Type :=
| Ret (a : A)
| Raise (r : raised).
Arguments Ret {A} a.
Arguments Raise {A} r.

(** Code that runs on a mutable store [S]: the store survives a raise. *)
Definition M (S A : Type) : Type := S -> res A * S.

Definition ret {S A} (a : A) : M S A := fun s => (Ret a, s).

Definition raise {S A} (r : raised) : M S A := fun s => (Raise r, s).

Definition bind {S A B} (m : M S A) (k : A -> M S B) : M S B :=
  fun s => match m s with
           | (Ret a, s') => k a s'
           | (Raise r, s') => (Raise r, s')
           end.

Definition lift {S A} (r : res A) : M S A := fun s => (r, s).

Definition get {S} : M S S := fun s => (Ret s, s).

Definition modify {S} (f : S -> S) : M S unit := fun s => (Ret tt, f s).

(** [try: body  except <Timeout>: on_timeout  except Exception as e:
    on_exception(e)]; anything else keeps propagating. *)
Definition try_except {S A} (body : M S A)
    (on_timeout : M S A) (on_exception : pyexn -> M S A) : M S A :=
  fun s => match body s with
           | (Ret a, s') => (Ret a, s')
           | (Raise (Exception e), s') =>
               if exn_is_timeout e then on_timeout s' else on_exception e s'
           | (Raise CancelledError, s') => (Raise CancelledError, s')
           end.

(** [try: body  except Exception as e: on_exception(e)]. *)
Definition try_except_all {S A} (body : M S A)
    (on_exception : pyexn -> M S A) : M S A :=
  fun s => match body s with
           | (Ret a, s') => (Ret a, s')
           | (Raise (Exception e), s') => on_exception e s'
           | (Raise CancelledError, s') => (Raise CancelledError, s')
           end.

Definition dquote : string := String (Ascii.ascii_of_nat 34) EmptyString.

Definition type_name (v : json) : string :=
  match v with
  | JNull => "NoneType"
  | JBool _ => "bool"
  | JInt _ => "int"
  | JFloat _ => "float"
  | JStr _ => "str"
  | JList _ => "list"
  | JDict _ => "dict"
  end.

Definition AttributeError (v : json) (attr : string) : raised :=
  Exception (PyExn "AttributeError"
    ("'" +:+ type_name v +:+ "' object has no attribute '" +:+ attr +:+ "'")
    false).

Definition TypeError (msg : string) : raised :=
  Exception (PyExn "TypeError" msg false).

Fixpoint assoc (key : string) (kvs : list (string * json)) : option json :=
  match kvs with
  | [] => None
  | (k, v) :: rest => if String.eqb k key then Some v else assoc key rest
  end.

(** [v.get(key, default)]: only a dict has the method. *)
Definition dict_get (v : json) (key : string) (default : json) : res json :=
  match v with
  | JDict kvs => Ret (match assoc key kvs with
                      | Some x => x
                      | None => default
                      end)
  | _ => Raise (AttributeError v "get")
  end.

Fixpoint chars (s : string) : list json :=
  match s with
  | EmptyString => []
  | String c rest => JStr (String c EmptyString) :: chars rest
  end.

(** [for x in v]: the items of a list, the keys of a dict, the
    characters of a str; nothing else is iterable. *)
Definition iterate (v : json) : res (list json) :=
  match v with
  | JList l => Ret l
  | JDict kvs => Ret (map (fun kv => JStr (fst kv)) kvs)
  | JStr s => Ret (chars s)
  | _ => Raise (TypeError ("'" +:+ type_name v +:+ "' object is not iterable"))
  end.

(** [v == s] for a str [s]. *)
Definition eq_str (v : json) (s : string) : bool :=
  match v with
  | JStr t => String.eqb t s
  | _ => false
  end.

(** [v[:n] + suffix] for a str [suffix]: defined on a str only.  A list
    can be sliced but not added to a str; a dict takes the slice for a key,
    and a slice cannot be hashed (CPython up to 3.11); the other types
    cannot be subscripted. *)
Definition slice_concat (v : json) (n : nat) (suffix : string) : res string :=
  match v with
  | JStr s => Ret (String.substring 0 n s +:+ suffix)
  | JList _ =>
      Raise (TypeError ("can only concatenate list (not " +:+ dquote +:+ "str"
                        +:+ dquote +:+ ") to list"))
  | JDict _ => Raise (TypeError "unhashable type: 'slice'")
  | _ => Raise (TypeError ("'" +:+ type_name v +:+ "' object is not subscriptable"))
  end.

(** [sum(l)]: a left fold from 0. *)
Definition sum (l : list Q) : Q := foldl Qplus 0%Q l.

(** [len(l)] as a number. *)
Definition len {A} (l : list A) : Q := inject_Z (Z.of_nat (length l)).

(** [int(q)]: truncation towards zero. *)
Definition int (q : Q) : Z := Z.quot (Qnum q) (Zpos (Qden q)).

Definition Qltb (x y : Q) : bool :=
  match (x ?= y)%Q with Lt => true | _ => false end.

End Py.

(** stdpp's monad notation ([x ← m; k] and [m;; k]) for [Py.M]. *)
#[global] Instance M_ret {S} : MRet (Py.M S) := fun A => @Py.ret S A.
#[global] Instance M_bind {S} : MBind (Py.M S) :=
  fun A B k m => @Py.bind S A B m k.

(** ** Constants of the module *)

Definition OLLAMA_BASE_URL : string := "http://host.docker.internal:11434".
Definition MODEL : string := "qwen3:latest".
Definition TEST_PROMPTS : list string :=
  ["Say hello"; "What is 2+2?"; "Explain Python in one sentence"].

(** ** STRATEGY 2: [AdaptiveTimeoutManager] *)

Record AdaptiveTimeoutManager : Type := {
  cold_timeout : Z;
  warm_timeout : Z;
  performance_history : list Q
}.

(** [AdaptiveTimeoutManager.__init__] *)
Definition AdaptiveTimeoutManager_init : AdaptiveTimeoutManager :=
  {| cold_timeout := 45; warm_timeout := 15; performance_history := [] |}.

(** [AdaptiveTimeoutManager.get_timeout], in exact arithmetic: the sum,
    the division and the product by 1.5 are not rounded. *)
Definition get_timeout (self : AdaptiveTimeoutManager)
    (is_first_request : bool) (model_state : string) : Z :=
  if String.eqb model_state "cold" && is_first_request then
    cold_timeout self
  else
    match performance_history self with
    | _ :: _ =>
        let avg_time :=
          (Py.sum (performance_history self) / Py.len (performance_history self))%Q in
        let adaptive_timeout :=
          Z.max (Py.int (avg_time * (3 # 2))%Q) (warm_timeout self) in
        adaptive_timeout
    | [] => warm_timeout self
    end.

(** [sum(l)] in floating point: a left fold from 0 in which every addition
    is rounded by [fl].  (From CPython 3.12 on, [sum] also compensates the
    rounding errors of its additions, which brings its result closer to
    the exact sum.) *)
Definition sum_rounded (fl : Q -> Q) (l : list Q) : Q :=
  foldl (fun acc x => fl (acc + x)%Q) 0%Q l.

(** [AdaptiveTimeoutManager.get_timeout] in floating point: [fl] is the
    rounding that each of its operations (the additions of [sum], the
    division, the product by 1.5) applies to its exact result.  With the
    identity for [fl] this is [get_timeout]; with the rounding of binary64
    it is what the interpreter computes. *)
Definition get_timeout_rounded (fl : Q -> Q) (self : AdaptiveTimeoutManager)
    (is_first_request : bool) (model_state : string) : Z :=
  if String.eqb model_state "cold" && is_first_request then
    cold_timeout self
  else
    match performance_history self with
    | _ :: _ =>
        let avg_time :=
          fl (sum_rounded fl (performance_history self)
              / Py.len (performance_history self))%Q in
        let adaptive_timeout :=
          Z.max (Py.int (fl (avg_time * (3 # 2))%Q)) (warm_timeout self) in
        adaptive_timeout
    | [] => warm_timeout self
    end.

(** [self.performance_history.append(x)] then, beyond five entries,
    [self.performance_history.pop(0)]. *)
Definition push_latency (history : list Q) (latency_seconds : Q) : list Q :=
  let history := history ++ [latency_seconds] in
  if (5 <? length history)%nat then tail history else history.

(** [AdaptiveTimeoutManager.record_success] *)
Definition record_success (self : AdaptiveTimeoutManager)
    (latency_seconds : Q) : AdaptiveTimeoutManager :=
  {| cold_timeout := cold_timeout self;
     warm_timeout := warm_timeout self;
     performance_history :=
       push_latency (performance_history self) latency_seconds |}.

(** ** The HTTP exchange, as the benchmark observes it *)

(** What [response.json()] does: it returns the parsed body, or raises
    the decoding error (a [JSONDecodeError]). *)
Inductive decoding : Type :=
| Decoded (v : Py.json)
| Undecodable (e : Py.pyexn).

(** A response object: [response.status_code], the text of the error that
    [response.raise_for_status()] reports for an error status, and the
    behaviour of [response.json()]. *)
Record response : Type := {
  status_code : Z;
  reason : string;
  body : decoding
}.

(** [response.json()] *)
Definition json {S} (r : response) : Py.M S Py.json :=
  match body r with
  | Decoded v => mret v
  | Undecodable e => Py.raise (Py.Exception e)
  end.

(** What a [requests] call did: a response came back, or the call raised
    (timeout, refused or reset connection, DNS failure, ...). *)
Inductive reply : Type :=
| Responded (r : response)
| Threw (e : Py.pyexn).

(** What an awaited [httpx] call did: as above, or the task was cancelled
    while it waited. *)
Inductive areply : Type :=
| Settled (r : reply)
| Cancelled.

(** One request as seen from the benchmark: the successive readings of
    [time.perf_counter()] during the request, and what the call did. *)
Record exchange (R : Type) : Type := {
  clock : nat -> Q;
  answer : R
}.
Arguments clock {R} _ _.
Arguments answer {R} _.

(** [requests.get] / [requests.post] *)
Definition requests_call {S} (got : reply) : Py.M S response :=
  match got with
  | Responded r => mret r
  | Threw e => Py.raise (Py.Exception e)
  end.

(** [await client.post(...)] *)
Definition httpx_call {S} (got : areply) : Py.M S response :=
  match got with
  | Settled r => requests_call r
  | Cancelled => Py.raise Py.CancelledError
  end.

(** [Response.raise_for_status] of [requests]: raises [HTTPError] for a
    status 400..599. *)
Definition requests_raise_for_status {S} (r : response) : Py.M S unit :=
  if (400 <=? status_code r) && (status_code r <? 600) then
    Py.raise (Py.Exception (Py.PyExn "HTTPError" (reason r) false))
  else mret tt.

(** [Response.raise_for_status] of [httpx]: raises [HTTPStatusError]
    unless the status is 2xx. *)
Definition httpx_raise_for_status {S} (r : response) : Py.M S unit :=
  if (200 <=? status_code r) && (status_code r <=? 299) then mret tt
  else Py.raise (Py.Exception (Py.PyExn "HTTPStatusError" (reason r) false)).

(** ** STRATEGY 1: [ModelStateManager] *)

Record ModelStateManager : Type := {
  is_warm : bool;
  warmup_time : option Q
}.

(** [ModelStateManager.__init__] *)
Definition ModelStateManager_init : ModelStateManager :=
  {| is_warm := false; warmup_time := None |}.

Definition set_is_warm (b : bool) (self : ModelStateManager) : ModelStateManager :=
  {| is_warm := b; warmup_time := warmup_time self |}.

(** [any(model.get("name") == name for model in loaded_models)]: stops at
    the first match; an entry without [get] raises. *)
Fixpoint any_named (name : string) (loaded_models : list Py.json) : Py.res bool :=
  match loaded_models with
  | [] => Py.Ret false
  | model :: rest =>
      match Py.dict_get model "name" Py.JNull with
      | Py.Ret v => if Py.eq_str v name then Py.Ret true else any_named name rest
      | Py.Raise r => Py.Raise r
      end
  end.

(** [ModelStateManager.check_model_state]; [got] is what
    [requests.get(f"{OLLAMA_BASE_URL}/api/ps", timeout=5)] did. *)
Definition check_model_state (got : reply) : Py.M ModelStateManager string :=
  Py.try_except_all
    (response ← requests_call got;
     if status_code response =? 200 then
       parsed ← json response;
       loaded_models ← Py.lift (Py.dict_get parsed "models" (Py.JList []));
       entries ← Py.lift (Py.iterate loaded_models);
       warm ← Py.lift (any_named MODEL entries);
       Py.modify (set_is_warm warm);;
       match warm with
       | true => mret "warm"
       | false => mret "cold"
       end
     else
       mret "unknown")
    (fun e => mret "unknown").

(** ** The request functions *)

(** The dict a request function returns; [error_type] is absent from the
    dict of a successful request. *)
Record outcome : Type := {
  prompt : string;
  response_text : string;
  latency_ms : Q;
  success : bool;
  method : string;
  error_type : option string
}.

(** [{**result, "method": m}] *)
Definition with_method (m : string) (result : outcome) : outcome :=
  {| prompt := prompt result;
     response_text := response_text result;
     latency_ms := latency_ms result;
     success := success result;
     method := m;
     error_type := error_type result |}.

(** The objects [enhanced_sync_request] works on: how often it has read
    the clock, and the [timeout_manager] it was passed. *)
Record sync_store : Type := {
  ticks : nat;
  timeout_manager : AdaptiveTimeoutManager
}.

Definition sync_perf_counter (x : exchange reply) : Py.M sync_store Q :=
  fun s => (Py.Ret (clock x (ticks s)),
            {| ticks := S (ticks s); timeout_manager := timeout_manager s |}).

Definition on_timeout_manager (f : AdaptiveTimeoutManager -> AdaptiveTimeoutManager)
    (s : sync_store) : sync_store :=
  {| ticks := ticks s; timeout_manager := f (timeout_manager s) |}.

(** [enhanced_sync_request(prompt, timeout, timeout_manager)] *)
Definition enhanced_sync_request (x : exchange reply) (prompt : string)
    (timeout : Z) : Py.M sync_store outcome :=
  start_time ← sync_perf_counter x;
  Py.try_except
    (response ← requests_call (answer x);
     requests_raise_for_status response;;
     now ← sync_perf_counter x;
     let elapsed := ((now - start_time) * 1000)%Q in
     let elapsed_seconds := (elapsed / 1000)%Q in
     Py.modify (on_timeout_manager (fun tm => record_success tm elapsed_seconds));;
     result ← json response;
     text ← Py.lift (Py.dict_get result "response" (Py.JStr ""));
     excerpt ← Py.lift (Py.slice_concat text 100 "...");
     mret {| prompt := prompt;
             response_text := excerpt;
             latency_ms := elapsed;
             success := true;
             method := "sync";
             error_type := None |})
    (now ← sync_perf_counter x;
     let elapsed := ((now - start_time) * 1000)%Q in
     mret {| prompt := prompt;
             response_text := "Timeout after " +:+ pretty timeout +:+ "s";
             latency_ms := elapsed;
             success := false;
             method := "sync";
             error_type := Some "timeout" |})
    (fun e =>
     now ← sync_perf_counter x;
     let elapsed := ((now - start_time) * 1000)%Q in
     mret {| prompt := prompt;
             response_text := "Error: " +:+ Py.exn_str e;
             latency_ms := elapsed;
             success := false;
             method := "sync";
             error_type := Some (Py.exn_name e) |}).

(** [enhanced_async_request] has no [timeout_manager] in scope: all it
    works on is its own count of clock readings. *)
Definition async_perf_counter (x : exchange areply) : Py.M nat Q :=
  fun n => (Py.Ret (clock x n), S n).

(** [enhanced_async_request(prompt, timeout)] *)
Definition enhanced_async_request (x : exchange areply) (prompt : string)
    (timeout : Z) : Py.M nat outcome :=
  start_time ← async_perf_counter x;
  Py.try_except
    (response ← httpx_call (answer x);
     httpx_raise_for_status response;;
     now ← async_perf_counter x;
     let elapsed := ((now - start_time) * 1000)%Q in
     result ← json response;
     text ← Py.lift (Py.dict_get result "response" (Py.JStr ""));
     excerpt ← Py.lift (Py.slice_concat text 100 "...");
     mret {| prompt := prompt;
             response_text := excerpt;
             latency_ms := elapsed;
             success := true;
             method := "async";
             error_type := None |})
    (now ← async_perf_counter x;
     let elapsed := ((now - start_time) * 1000)%Q in
     mret {| prompt := prompt;
             response_text := "Timeout after " +:+ pretty timeout +:+ "s";
             latency_ms := elapsed;
             success := false;
             method := "async";
             error_type := Some "timeout" |})
    (fun e =>
     now ← async_perf_counter x;
     let elapsed := ((now - start_time) * 1000)%Q in
     mret {| prompt := prompt;
             response_text := "Error: " +:+ Py.exn_str e;
             latency_ms := elapsed;
             success := false;
             method := "async";
             error_type := Some (Py.exn_name e) |}).

(** ** The dispatch loops of [main] *)

(** The two locals of [main] that the loops update. *)
Record main_store : Type := {
  main_timeout_manager : AdaptiveTimeoutManager;
  main_results : list outcome
}.

(** [results.append(result)] *)
Definition results_append (result : outcome) (b : main_store) : main_store :=
  {| main_timeout_manager := main_timeout_manager b;
     main_results := main_results b ++ [result] |}.

(** A call [f(..., timeout_manager)] from [main]: the callee works on
    [main]'s manager object. *)
Definition call_with_manager {A} (f : Py.M sync_store A) : Py.M main_store A :=
  fun b =>
    match f {| ticks := 0; timeout_manager := main_timeout_manager b |} with
    | (r, s) => (r, {| main_timeout_manager := timeout_manager s;
                       main_results := main_results b |})
    end.

(** [await f(...)] for a coroutine that is passed none of [main]'s objects. *)
Definition await {A} (f : Py.M nat A) : Py.M main_store A :=
  fun b => (fst (f 0%nat), b).

(** Step 5: [for i, prompt in enumerate(TEST_PROMPTS)], each prompt with
    the exchange its request will have. *)
Fixpoint sync_requests (model_state : string) (i : nat)
    (work : list (string * exchange reply)) : Py.M main_store unit :=
  match work with
  | [] => mret tt
  | (prompt, x) :: rest =>
      let is_first := (i =? 0)%nat in
      b ← Py.get;
      let timeout := get_timeout (main_timeout_manager b) is_first model_state in
      result ← call_with_manager (enhanced_sync_request x prompt timeout);
      Py.modify (results_append result);;
      sync_requests model_state (S i) rest
  end.

(** Step 6: [for prompt in TEST_PROMPTS]. *)
Fixpoint async_requests (work : list (string * exchange areply))
    : Py.M main_store unit :=
  match work with
  | [] => mret tt
  | (prompt, x) :: rest =>
      b ← Py.get;
      let timeout := get_timeout (main_timeout_manager b) false "warm" in
      result ← await (enhanced_async_request x prompt timeout);
      Py.modify (results_append result);;
      async_requests rest
  end.

(** A task of a [gather] completes: its result, the dict it returned or
    the exception it raised, is stored in its slot. *)
Definition complete (tasks : list (Py.M nat outcome))
    (slots : list (option (Py.res outcome))) (i : nat)
    : list (option (Py.res outcome)) :=
  match tasks !! i with
  | Some task => <[i := Some (fst (task 0%nat))]> slots
  | None => slots
  end.

(** [asyncio.gather] of the tasks, with [return_exceptions=True].  The
    tasks complete in the order [order] (task numbers). *)
Definition gather_slots (tasks : list (Py.M nat outcome)) (order : list nat)
    : list (option (Py.res outcome)) :=
  foldl (complete tasks) (replicate (length tasks) None) order.

(** [gather] returns the slots once every task has completed. *)
Definition gather (tasks : list (Py.M nat outcome)) (order : list nat)
    : option (list (Py.res outcome)) :=
  mapM id (gather_slots tasks order).

(** [for result in concurrent_results: if isinstance(result, dict):
    results.append({**result, "method": "concurrent"})] *)
Fixpoint append_dicts (concurrent_results : list (Py.res outcome))
    (results : list outcome) : list outcome :=
  match concurrent_results with
  | [] => results
  | Py.Ret result :: rest =>
      append_dicts rest (results ++ [with_method "concurrent" result])
  | Py.Raise _ :: rest => append_dicts rest results
  end.

(** Step 7; [None] when the tasks do not all complete under [order]. *)
Definition concurrent_requests (work : list (string * exchange areply))
    (order : list nat) (b : main_store) : option main_store :=
  let warm_timeout := get_timeout (main_timeout_manager b) false "warm" in
  let tasks :=
    map (fun w => enhanced_async_request (snd w) (fst w) warm_timeout) work in
  concurrent_results ← gather tasks order;
  Some {| main_timeout_manager := main_timeout_manager b;
          main_results := append_dicts concurrent_results (main_results b) |}.

(** ** [analyze_enhanced_results] *)

(** A row of the table: [table.add_row(method.title(), success_rate,
    avg_latency, optimization)], the two numbers before they are
    formatted. *)
Record row : Type := {
  row_method : string;
  row_success_rate : Q;
  row_avg_latency : Q;
  row_optimization : string
}.

Definition methods : list string := ["sync"; "async"; "concurrent"].

Definition needs_tuning : string := "⚠️  Needs tuning".

(** The body of [for method in methods]: the row added for [method], if
    any.  The two figures are computed in exact arithmetic: the program
    adds the latencies in binary64 from left to right, so its average can
    differ from this one in the last bits, and with it the tag of the
    ASYNC row when the average is that close to 5000. *)
Definition method_row (results : list outcome) (method0 : string) : option row :=
  let method_results := filter (fun r => method r = method0) results in
  let successful := filter (fun r => success r = true) method_results in
  match method_results with
  | [] => None
  | _ :: _ =>
      let success_rate := (Py.len successful / Py.len method_results * 100)%Q in
      let avg_latency :=
        match successful with
        | _ :: _ => (Py.sum (map latency_ms successful) / Py.len successful)%Q
        | [] => 0%Q
        end in
      let optimization :=
        if String.eqb method0 "sync" && Qeq_bool success_rate 100 then
          "✅ State mgmt working"
        else if String.eqb method0 "async" && Py.Qltb avg_latency 5000 then
          "✅ Timeouts optimized"
        else if String.eqb method0 "concurrent" && Py.Qltb 80 success_rate then
          "✅ Parallel efficiency"
        else
          needs_tuning in
      Some {| row_method := method0;
              row_success_rate := success_rate;
              row_avg_latency := avg_latency;
              row_optimization := optimization |}
  end.

(** The rows of the table, in the order they are added. *)
Definition analyze_enhanced_results (results : list outcome) : list row :=
  omap (method_row results) methods.

(** Steps 5 to 8 of [main], from a fresh manager and [results = []]. *)
Definition benchmark (model_state : string)
    (sync_work : list (string * exchange reply))
    (async_work concurrent_work : list (string * exchange areply))
    (order : list nat) : option (Py.res (list row) * main_store) :=
  let b0 := {| main_timeout_manager := AdaptiveTimeoutManager_init;
               main_results := [] |} in
  match (sync_requests model_state 0 sync_work;; async_requests async_work) b0 with
  | (Py.Ret _, b1) =>
      b2 ← concurrent_requests concurrent_work order b1;
      Some (Py.Ret (analyze_enhanced_results (main_results b2)), b2)
  | (Py.Raise r, b1) => Some (Py.Raise r, b1)
  end.

(** ** The warmup request, the warmup and the connection test *)

(** A function that is passed none of the caller's objects reads the clock
    of its exchange; all it works on is its count of readings. *)
Definition perf_counter (x : exchange reply) : Py.M nat Q :=
  fun n => (Py.Ret (clock x n), S n).

(** [sync_request_basic(prompt)] *)
Definition sync_request_basic (x : exchange reply) (prompt : string)
    : Py.M nat outcome :=
  start_time ← perf_counter x;
  Py.try_except_all
    (response ← requests_call (answer x);
     requests_raise_for_status response;;
     now ← perf_counter x;
     let elapsed := ((now - start_time) * 1000)%Q in
     result ← json response;
     text ← Py.lift (Py.dict_get result "response" (Py.JStr ""));
     excerpt ← Py.lift (Py.slice_concat text 50 "...");
     mret {| prompt := prompt;
             response_text := excerpt;
             latency_ms := elapsed;
             success := true;
             method := "warmup";
             error_type := None |})
    (fun e =>
     now ← perf_counter x;
     let elapsed := ((now - start_time) * 1000)%Q in
     mret {| prompt := prompt;
             response_text := "Error: " +:+ Py.exn_str e;
             latency_ms := elapsed;
             success := false;
             method := "warmup";
             error_type := None |}).

(** What [warmup_model] works on: the clock readings made so far, by
    itself and by the request it sends, and its [self]. *)
Record warmup_store : Type := {
  warmup_ticks : nat;
  warmup_self : ModelStateManager
}.

(** A step that only reads the clock. *)
Definition on_ticks {A} (f : Py.M nat A) : Py.M warmup_store A :=
  fun s =>
    match f (warmup_ticks s) with
    | (r, n) => (r, {| warmup_ticks := n; warmup_self := warmup_self s |})
    end.

Definition on_self (f : ModelStateManager -> ModelStateManager)
    (s : warmup_store) : warmup_store :=
  {| warmup_ticks := warmup_ticks s; warmup_self := f (warmup_self s) |}.

Definition set_warmup_time (t : Q) (self : ModelStateManager)
    : ModelStateManager :=
  {| is_warm := is_warm self; warmup_time := Some t |}.

(** [ModelStateManager.warmup_model] *)
Definition warmup_model (x : exchange reply) : Py.M warmup_store bool :=
  start_time ← on_ticks (perf_counter x);
  Py.try_except_all
    (result ← on_ticks (sync_request_basic x "Hi");
     now ← on_ticks (perf_counter x);
     Py.modify (on_self (set_warmup_time (now - start_time)%Q));;
     match success result with
     | true => Py.modify (on_self (set_is_warm true));; mret true
     | false => mret false
     end)
    (fun e => mret false).

(** [len(v)]: a list, a dict and a str have a length. *)
Definition len_of (v : Py.json) : Py.res nat :=
  match v with
  | Py.JList l => Py.Ret (length l)
  | Py.JDict kvs => Py.Ret (length kvs)
  | Py.JStr s => Py.Ret (String.length s)
  | _ => Py.Raise (Py.TypeError
           ("object of type '" +:+ Py.type_name v +:+ "' has no len()"))
  end.

(** [test_connection]; [got] is what
    [requests.get(f"{OLLAMA_BASE_URL}/api/tags", timeout=5)] did. *)
Definition test_connection {S} (got : reply) : Py.M S bool :=
  Py.try_except_all
    (response ← requests_call got;
     if status_code response =? 200 then
       parsed ← json response;
       models ← Py.lift (Py.dict_get parsed "models" (Py.JList []));
       found ← Py.lift (len_of models);
       mret true
     else
       mret false)
    (fun e => mret false).

(** ** Notions used to state the properties *)

(** A manager as [__init__] makes it whose history has become [h]. *)
Definition manager_with_history (h : list Q) : AdaptiveTimeoutManager :=
  {| cold_timeout := cold_timeout AdaptiveTimeoutManager_init;
     warm_timeout := warm_timeout AdaptiveTimeoutManager_init;
     performance_history := h |}.

(** The manager after the latencies [xs] were recorded, oldest first. *)
Definition record_all (xs : list Q) : AdaptiveTimeoutManager :=
  foldl record_success AdaptiveTimeoutManager_init xs.

(** The arithmetic mean of a history. *)
Definition mean (h : list Q) : Q := (Py.sum h / Py.len h)%Q.

(** A rounding [fl] is accurate to [err] up to [bound]: on a number between
    [- bound] and [bound] it is off by at most [err].  Rounding to the
    nearest binary64 number is accurate to 10^-9 up to 8 * 10^6: below 2^23
    two neighbouring binary64 numbers are at most 2^-30 apart. *)
Definition rounds_within (fl : Q -> Q) (bound err : Q) : Prop :=
  forall x : Q,
    (- bound <= x <= bound)%Q -> (x - err <= fl x <= x + err)%Q.

(** Rounding to the nearest multiple of 2^-40, halves upwards. *)
Definition round_to_grid (x : Q) : Q :=
  (inject_Z (Qfloor (x * inject_Z (2 ^ 40) + (1 # 2))) / inject_Z (2 ^ 40))%Q.

(** The warm-tier timeout in the words of the specification:
    [max(1.5 * mean(h), 15)], a number of seconds that need not be whole. *)
Definition spec_next_timeout (h : list Q) : Q :=
  let t := ((3 # 2) * mean h)%Q in
  if Qle_bool 15 t then t else 15%Q.

(** The pairs of a JSON object. *)
Definition as_dict (v : Py.json) : option (list (string * Py.json)) :=
  match v with
  | Py.JDict kvs => Some kvs
  | _ => None
  end.

(** What the probe iterates over when the response has the decoded body
    of a JSON object: the items of its ["models"] list (no item when the
    key is absent), the keys of an object, the characters of a text; a
    null, a boolean or a number cannot be iterated over. *)
Definition probe_items (r : response) : option (list Py.json) :=
  match body r with
  | Decoded (Py.JDict kvs) =>
      match Py.assoc "models" kvs with
      | None => Some []
      | Some (Py.JList l) => Some l
      | Some (Py.JDict entries) => Some (map (fun kv => Py.JStr (fst kv)) entries)
      | Some (Py.JStr s) => Some (Py.chars s)
      | Some _ => None
      end
  | _ => None
  end.

(** The name of an entry, when it has one that is a str. *)
Definition entry_name (entry : list (string * Py.json)) : option string :=
  match Py.assoc "name" entry with
  | Some (Py.JStr n) => Some n
  | _ => None
  end.

(** The tag a request function files an exception under. *)
Definition error_tag (e : Py.pyexn) : string :=
  if Py.exn_is_timeout e then "timeout" else Py.exn_name e.

(** The class name of the error [raise_for_status] raises for a response,
    if it raises: [requests] and [httpx] each have their own test. *)
Definition requests_status_error (r : response) : option string :=
  if (400 <=? status_code r) && (status_code r <? 600) then Some "HTTPError"
  else None.

Definition httpx_status_error (r : response) : option string :=
  if (200 <=? status_code r) && (status_code r <=? 299) then None
  else Some "HTTPStatusError".

(** The excerpt of a decoded body, when it has one: the first 100
    characters of its ["response"] text and an ellipsis. *)
Definition excerpt (v : Py.json) : option string :=
  match v with
  | Py.JDict kvs =>
      match Py.assoc "response" kvs with
      | Some (Py.JStr s) => Some (String.substring 0 100 s +:+ "...")
      | Some _ => None
      | None => Some "..."
      end
  | _ => None
  end.

(** The exception that the use of a decoded body [v] raises, if it does:
    [v.get("response", "")] raises on a body that is not an object, and
    [text[:n] + "..."] raises on a text that is not a str. *)
Definition body_error (n : nat) (v : Py.json) : option Py.pyexn :=
  match Py.dict_get v "response" (Py.JStr "") with
  | Py.Ret text =>
      match Py.slice_concat text n "..." with
      | Py.Raise (Py.Exception e) => Some e
      | _ => None
      end
  | Py.Raise (Py.Exception e) => Some e
  | Py.Raise Py.CancelledError => None
  end.

(** [o] is a failed outcome filed under [tag] with latency [latency]. *)
Definition failed_with (o : outcome) (tag : string) (latency : Q) : Prop :=
  success o = false /\ error_type o = Some tag /\ (latency_ms o == latency)%Q.

(** [o] is a successful outcome with latency [latency]. *)
Definition succeeded_with (o : outcome) (text : string) (latency : Q) : Prop :=
  success o = true /\ error_type o = None /\ response_text o = text
  /\ (latency_ms o == latency)%Q.

(** How an outcome [o] relates to what the HTTP call did, [got], for a
    request function whose clock [c] had been read [t] times before: the
    latency runs from the reading at the start to the reading taken just
    after the response passed [raise_for_status], or in the handler. *)
Definition outcome_of_reply (http_error : response -> option string)
    (c : nat -> Q) (t : nat) (got : reply) (o : outcome) : Prop :=
  match got with
  | Threw e => failed_with o (error_tag e) ((c (S t) - c t) * 1000)
  | Responded r =>
      match http_error r with
      | Some name => failed_with o name ((c (S t) - c t) * 1000)
      | None =>
          match body r with
          | Undecodable e =>
              failed_with o (error_tag e) ((c (S (S t)) - c t) * 1000)
          | Decoded v =>
              match excerpt v with
              | Some text => succeeded_with o text ((c (S t) - c t) * 1000)
              | None =>
                  exists e,
                    body_error 100 v = Some e
                    /\ failed_with o (error_tag e)
                         ((c (S (S t)) - c t) * 1000)
              end
          end
      end
  end.

(** The dict a coroutine of the concurrent batch contributes to [results],
    if it returned one. *)
Definition concurrent_entry (timeout : Z) (w : string * exchange areply)
    : option outcome :=
  match fst (enhanced_async_request (snd w) (fst w) timeout 0%nat) with
  | Py.Ret result => Some (with_method "concurrent" result)
  | Py.Raise _ => None
  end.

Definition is_cancelled (w : string * exchange areply) : bool :=
  match answer (snd w) with
  | Cancelled => true
  | Settled _ => false
  end.

(** The outcomes of a mode counted one outcome at a time: how many there
    are, how many of them succeeded, and the latencies of those that
    succeeded added up. *)
Fixpoint total_count (m : string) (results : list outcome) : nat :=
  match results with
  | [] => 0
  | r :: rest =>
      (if String.eqb (method r) m then 1 else 0) + total_count m rest
  end.

Fixpoint successful_count (m : string) (results : list outcome) : nat :=
  match results with
  | [] => 0
  | r :: rest =>
      (if String.eqb (method r) m && success r then 1 else 0)
      + successful_count m rest
  end.

Fixpoint successful_latency (m : string) (results : list outcome) : Q :=
  match results with
  | [] => 0
  | r :: rest =>
      if String.eqb (method r) m && success r
      then latency_ms r + successful_latency m rest
      else successful_latency m rest
  end.

(** [successful_count / total_count * 100] *)
Definition spec_success_rate (m : string) (results : list outcome) : Q :=
  inject_Z (Z.of_nat (successful_count m results))
  / inject_Z (Z.of_nat (total_count m results)) * 100.

(** The mean latency of the successful outcomes, 0 if there are none. *)
Definition spec_avg_latency (m : string) (results : list outcome) : Q :=
  if (successful_count m results =? 0)%nat then 0
  else successful_latency m results
       / inject_Z (Z.of_nat (successful_count m results)).

(** The tag that the chain of tests gives a mode with these figures. *)
Definition tag_of (m : string) (success_rate avg_latency : Q) : string :=
  if String.eqb m "sync" && Qeq_bool success_rate 100 then
    "✅ State mgmt working"
  else if String.eqb m "async" && Py.Qltb avg_latency 5000 then
    "✅ Timeouts optimized"
  else if String.eqb m "concurrent" && Py.Qltb 80 success_rate then
    "✅ Parallel efficiency"
  else needs_tuning.

(** A row is tagged healthy when its tag is not "needs tuning". *)
Definition healthy (r : row) : bool :=
  negb (String.eqb (row_optimization r) needs_tuning).

(** [max(x, 15)] on the rationals. *)
Definition clamp15 (x : Q) : Q := if Qle_bool 15 x then x else 15%Q.

(** A reply is accepted when a response came back and
    [raise_for_status] of [requests] let it pass. *)
Definition accepted (got : reply) : bool :=
  match got with
  | Responded r =>
      match requests_status_error r with
      | None => true
      | Some _ => false
      end
  | Threw _ => false
  end.

(** The manager after the SYNC request of [w], made from a fresh count of
    clock readings: it gains the elapsed seconds of an accepted reply. *)
Definition manager_after (tm : AdaptiveTimeoutManager)
    (w : string * exchange reply) : AdaptiveTimeoutManager :=
  if accepted (answer (snd w))
  then record_success tm
         (((clock (snd w) 1 - clock (snd w) 0) * 1000) / 1000)%Q
  else tm.

(** The excerpt of a decoded body with the first [n] characters of its
    ["response"] text. *)
Definition excerpt_upto (n : nat) (v : Py.json) : option string :=
  match v with
  | Py.JDict kvs =>
      match Py.assoc "response" kvs with
      | Some (Py.JStr s) => Some (String.substring 0 n s +:+ "...")
      | Some _ => None
      | None => Some "..."
      end
  | _ => None
  end.

(** How the outcome [o] of [sync_request_basic] relates to what the HTTP
    call did. *)
Definition basic_outcome_of_reply (c : nat -> Q) (t : nat) (got : reply)
    (o : outcome) : Prop :=
  match got with
  | Threw e =>
      success o = false /\ response_text o = "Error: " +:+ Py.exn_str e
      /\ (latency_ms o == (c (S t) - c t) * 1000)%Q
  | Responded r =>
      match requests_status_error r with
      | Some _ =>
          success o = false /\ response_text o = "Error: " +:+ reason r
          /\ (latency_ms o == (c (S t) - c t) * 1000)%Q
      | None =>
          match body r with
          | Undecodable e =>
              success o = false
              /\ response_text o = "Error: " +:+ Py.exn_str e
              /\ (latency_ms o == (c (S (S t)) - c t) * 1000)%Q
          | Decoded v =>
              match excerpt_upto 50 v with
              | Some text =>
                  success o = true /\ response_text o = text
                  /\ (latency_ms o == (c (S t) - c t) * 1000)%Q
              | None =>
                  exists e,
                    body_error 50 v = Some e
                    /\ success o = false
                    /\ response_text o = "Error: " +:+ Py.exn_str e
                    /\ (latency_ms o == (c (S (S t)) - c t) * 1000)%Q
              end
          end
      end
  end.

(** The exception that [sync_request_basic] meets on a reply, if it meets
    one: the one the HTTP call raised, the error that [raise_for_status]
    reports for the status, the decoding error of the body, or the error of
    using the decoded body. *)
Definition basic_raised (got : reply) : option Py.pyexn :=
  match got with
  | Threw e => Some e
  | Responded r =>
      match requests_status_error r with
      | Some name => Some (Py.PyExn name (reason r) false)
      | None =>
          match body r with
          | Undecodable e => Some e
          | Decoded v => body_error 50 v
          end
      end
  end.

(** The values that have a length. *)
Definition sized (v : Py.json) : bool :=
  match v with
  | Py.JList _ | Py.JDict _ | Py.JStr _ => true
  | _ => false
  end.

(** The reply passes the connection test: status 200 and a body that is a
    JSON object whose ["models"] entry, when there is one, has a length. *)
Definition connection_ok (got : reply) : bool :=
  match got with
  | Responded r =>
      (status_code r =? 200)
      && match body r with
         | Decoded (Py.JDict kvs) =>
             match Py.assoc "models" kvs with
             | Some models => sized models
             | None => true
             end
         | _ => false
         end
  | Threw _ => false
  end.

(** The work items before the first cancelled one. *)
Fixpoint before_cancel (work : list (string * exchange areply))
    : list (string * exchange areply) :=
  match work with
  | [] => []
  | w :: rest => if is_cancelled w then [] else w :: before_cancel rest
  end.

(** The ASYNC loop with one timeout for all its requests. *)
Fixpoint async_requests_at (timeout : Z)
    (work : list (string * exchange areply)) : Py.M main_store unit :=
  match work with
  | [] => mret tt
  | (prompt, x) :: rest =>
      result ← await (enhanced_async_request x prompt timeout);
      Py.modify (results_append result);;
      async_requests_at timeout rest
  end.

(** Two rows of the same mode with the same success rate and, unless the
    mode is ASYNC, whose tag depends on the average latency, the same
    tag. *)
Definition same_verdict (a b : row) : Prop :=
  row_method a = row_method b
  /\ (row_success_rate a == row_success_rate b)%Q
  /\ (row_method a <> "async" -> row_optimization a = row_optimization b).

(** A response with status 200 whose body has the list [models] under
    ["models"]. *)
Definition ps_listing (models : list Py.json) : response :=
  {| status_code := 200; reason := "OK";
     body := Decoded (Py.JDict [("models", Py.JList models)]) |}.

(** ** Example inputs *)

(** The binary64 number that is written 11.333333333333332. *)
Definition binary64_11_333333333333332 : Q :=
  3190049736054101 # 281474976710656.


(** A clock that reads 10.0, 10.5, 11.0, ... seconds. *)
Definition half_second_clock (n : nat) : Q :=
  (10 + inject_Z (Z.of_nat n) * (1 # 2))%Q.

Definition hello_body : Py.json :=
  Py.JDict [("model", Py.JStr MODEL); ("response", Py.JStr "Hello!")].

Definition ok_response : response :=
  {| status_code := 200; reason := "OK"; body := Decoded hello_body |}.

(** Status 200 with a body that is not JSON. *)
Definition undecodable_response : response :=
  {| status_code := 200; reason := "OK";
     body := Undecodable
       (Py.PyExn "JSONDecodeError" "Expecting value: line 1 column 1 (char 0)"
          false) |}.

Definition server_error_response : response :=
  {| status_code := 500; reason := "500 Server Error";
     body := Decoded (Py.JDict [("error", Py.JStr "model failed to load")]) |}.

Definition connection_refused : Py.pyexn :=
  Py.PyExn "ConnectionError" "Connection refused" false.

Definition read_timeout : Py.pyexn :=
  Py.PyExn "ReadTimeout" "Read timed out." true.

Definition sync_exchange (got : reply) : exchange reply :=
  {| clock := half_second_clock; answer := got |}.

Definition async_exchange (got : areply) : exchange areply :=
  {| clock := half_second_clock; answer := got |}.

(** A fresh [timeout_manager] and no clock reading yet. *)
Definition fresh_sync_store : sync_store :=
  {| ticks := 0; timeout_manager := AdaptiveTimeoutManager_init |}.

Definition fresh_main_store : main_store :=
  {| main_timeout_manager := AdaptiveTimeoutManager_init; main_results := [] |}.

(** What a successful "Say hello" returns under [half_second_clock]: half
    a second elapsed, 500 ms. *)
Definition hello_outcome (method0 : string) : outcome :=
  {| prompt := "Say hello";
     response_text := "Hello!...";
     latency_ms := 2000 # 4;
     success := true;
     method := method0;
     error_type := None |}.

Definition hello_work : list (string * exchange areply) :=
  [("Say hello", async_exchange (Settled (Responded ok_response)))].

(** The flags of an outcome that the report depends on. *)
Definition flags (o : outcome) : string * bool :=
  (method o, success o).

(** The answer of [/api/ps] when the models [names] are loaded. *)
Definition ps_response (names : list string) : response :=
  {| status_code := 200; reason := "OK";
     body := Decoded (Py.JDict
       [("models",
         Py.JList (map (fun n => Py.JDict [("name", Py.JStr n);
                                           ("model", Py.JStr n)]) names))]) |}.

(** * Properties of the timeout policy *)

Lemma record_success_cold_timeout tm x :
  cold_timeout (record_success tm x) = cold_timeout tm.
Proof. reflexivity. Qed.

Lemma record_success_warm_timeout tm x :
  warm_timeout (record_success tm x) = warm_timeout tm.
Proof. reflexivity. Qed.

Lemma record_all_snoc xs x :
  record_all (xs ++ [x]) = record_success (record_all xs) x.
Proof. unfold record_all. apply foldl_snoc. Qed.

Lemma record_all_timeouts xs :
  cold_timeout (record_all xs) = 45 /\ warm_timeout (record_all xs) = 15.
Proof.
  induction xs as [|x xs IH] using rev_ind; [done|].
  rewrite record_all_snoc, record_success_cold_timeout,
    record_success_warm_timeout. exact IH.
Qed.

(** C9: whatever the latency history, empty or not, the first request to a
    cold model gets the cold-start timeout of 45 seconds: the cold tier is
    tested before the history is looked at.  This holds of a manager with
    an arbitrary history [h], and of every manager that [record_success]
    calls can produce. *)
Theorem cold_first_request_gets_45 (h xs : list Q) :
  get_timeout (manager_with_history h) true "cold" = 45
  /\ get_timeout (record_all xs) true "cold" = 45.
Proof.
  split; [reflexivity|].
  unfold get_timeout. cbn [String.eqb andb].
  change (String.eqb "cold" "cold") with true. cbn [andb].
  apply record_all_timeouts.
Qed.

Lemma push_latency_short (h : list Q) (x : Q) :
  (length h < 5)%nat -> push_latency h x = h ++ [x].
Proof.
  intros Hlen. unfold push_latency.
  rewrite length_app. cbn [length].
  destruct (Nat.ltb_spec 5 (length h + 1)); [lia|reflexivity].
Qed.

Lemma push_latency_full (h : list Q) (x : Q) :
  (5 <= length h)%nat -> push_latency h x = tail h ++ [x].
Proof.
  intros Hlen. unfold push_latency.
  rewrite length_app. cbn [length].
  destruct (Nat.ltb_spec 5 (length h + 1)); [|lia].
  destruct h; [cbn in Hlen; lia|reflexivity].
Qed.

Lemma tail_drop {A} (l : list A) (k : nat) : tail (drop k l) = drop (S k) l.
Proof.
  revert k. induction l as [|y ys IH]; intros [|k]; try reflexivity.
  apply IH.
Qed.

Lemma history_is_last_five (xs : list Q) :
  performance_history (record_all xs) = drop (length xs - 5) xs.
Proof.
  induction xs as [|x xs IH] using rev_ind; [reflexivity|].
  rewrite record_all_snoc. cbn [record_success performance_history].
  rewrite IH, length_app. cbn [length].
  destruct (Nat.lt_ge_cases (length xs) 5) as [Hlt|Hge].
  - replace (length xs - 5)%nat with 0%nat by lia.
    replace (length xs + 1 - 5)%nat with 0%nat by lia.
    rewrite !drop_0. apply push_latency_short. exact Hlt.
  - rewrite push_latency_full by (rewrite length_drop; lia).
    replace (length xs + 1 - 5)%nat with (S (length xs - 5)) by lia.
    rewrite drop_app_le by lia. f_equal. apply tail_drop.
Qed.

(** C7: after any sequence of [record_success] calls the history holds at
    most 5 entries, and they are the 5 most recent latencies in arrival
    order; recording into a full history of five drops exactly its oldest
    entry and appends the new one. *)
Theorem history_bounded_fifo (xs : list Q) (a b c d e x : Q) :
  (length (performance_history (record_all xs)) <= 5)%nat
  /\ performance_history (record_all xs) = drop (length xs - 5) xs
  /\ performance_history
       (record_success (manager_with_history [a; b; c; d; e]) x)
     = [b; c; d; e; x].
Proof.
  split; [|split].
  - rewrite history_is_last_five, length_drop. lia.
  - apply history_is_last_five.
  - reflexivity.
Qed.

Lemma int_max_floor (x : Q) :
  Z.max (Py.int x) 15 = Qfloor (if Qle_bool 15 x then x else 15%Q).
Proof.
  destruct x as [n d]. unfold Py.int, Qle_bool. cbn [Qnum Qden].
  destruct (Z.leb_spec (15 * Z.pos d) (n * 1)) as [Hge|Hlt].
  - cbn [Qfloor]. rewrite Z.quot_div_nonneg by lia.
    apply Z.max_l. apply Z.div_le_lower_bound; lia.
  - change (Qfloor 15) with 15. apply Z.max_r.
    destruct (Z.le_gt_cases 0 n) as [Hn|Hn].
    + rewrite Z.quot_div_nonneg by lia.
      apply Z.lt_le_incl, Z.div_lt_upper_bound; lia.
    + replace n with (- - n) by lia.
      rewrite Z.quot_opp_l by lia.
      pose proof (Z.quot_pos (- n) (Z.pos d)). lia.
Qed.

(** [int] truncates towards zero. *)
Lemma int_trunc_bounds (q : Q) :
  (q - 1 < inject_Z (Py.int q))%Q
  /\ ((0 <= q)%Q -> (inject_Z (Py.int q) <= q)%Q)
  /\ ((q <= 0)%Q -> Py.int q <= 0).
Proof.
  destruct q as [n d]. unfold Py.int. cbn [Qnum Qden].
  unfold Qlt, Qle, Qminus, Qplus, Qopp, inject_Z. cbn [Qnum Qden].
  pose proof (Z.quot_rem' n (Z.pos d)) as Hqr.
  destruct (Z.le_gt_cases 0 n) as [Hn|Hn].
  - pose proof (Z.rem_bound_pos n (Z.pos d) Hn ltac:(lia)) as Hb.
    split; [nia|]. split; [intros _; nia|].
    intros H. assert (n = 0) by lia. subst n. rewrite Z.quot_0_l by lia. lia.
  - pose proof (Z.rem_bound_pos_neg n (Z.pos d) ltac:(lia) ltac:(lia)) as Hb.
    split; [nia|]. split; [intros H; lia|].
    intros _. nia.
Qed.

(** Without rounding, [get_timeout_rounded] is [get_timeout]. *)
Lemma get_timeout_rounded_exact (self : AdaptiveTimeoutManager)
    (is_first_request : bool) (model_state : string) :
  get_timeout_rounded (fun x => x) self is_first_request model_state
  = get_timeout self is_first_request model_state.
Proof. reflexivity. Qed.

(** Rounding to a multiple of 2^-40 is off by at most 2^-41. *)
Lemma round_to_grid_accurate (bound : Q) :
  rounds_within round_to_grid bound (1 # 1000000000).
Proof.
  intros x _. unfold round_to_grid.
  pose proof (Qfloor_le (x * inject_Z (2 ^ 40) + (1 # 2))) as Hle.
  pose proof (Qlt_floor (x * inject_Z (2 ^ 40) + (1 # 2))) as Hlt.
  rewrite inject_Z_plus in Hlt.
  change (inject_Z (2 ^ 40)) with 1099511627776%Q in *.
  change (inject_Z 1) with 1%Q in Hlt.
  set (f := inject_Z (Qfloor _)) in *.
  unfold Qdiv. change (/ 1099511627776)%Q with (1 # 1099511627776)%Q.
  split; lra.
Qed.

Lemma sum_rounded_snoc fl (l : list Q) (x : Q) :
  sum_rounded fl (l ++ [x]) = fl (sum_rounded fl l + x)%Q.
Proof. unfold sum_rounded. rewrite foldl_snoc. reflexivity. Qed.

Lemma sum_snoc (l : list Q) (x : Q) : Py.sum (l ++ [x]) = (Py.sum l + x)%Q.
Proof. unfold Py.sum. rewrite foldl_snoc. reflexivity. Qed.

Lemma len_le_5 {A} (l : list A) :
  (length l <= 5)%nat -> (0 <= Py.len l <= 5)%Q.
Proof.
  intros H. unfold Py.len. split.
  - change 0%Q with (inject_Z 0). rewrite <- Zle_Qle. lia.
  - change 5%Q with (inject_Z 5). rewrite <- Zle_Qle. lia.
Qed.

Lemma len_snoc {A} (l : list A) (x : A) :
  (Py.len (l ++ [x]) == Py.len l + 1)%Q.
Proof.
  unfold Py.len. rewrite length_app. cbn [length].
  rewrite Nat2Z.inj_add, inject_Z_plus. reflexivity.
Qed.

(** The rounded sum of at most five latencies of at most 10^6 seconds is
    off by at most 10^-9 for each addition. *)
Lemma sum_rounded_close fl (l : list Q) :
  rounds_within fl 8000000 (1 # 1000000000) ->
  (length l <= 5)%nat ->
  Forall (fun x => (0 <= x <= 1000000)%Q) l ->
  (0 <= Py.sum l <= 1000000 * Py.len l)%Q
  /\ (Py.sum l - (1 # 1000000000) * Py.len l <= sum_rounded fl l
      <= Py.sum l + (1 # 1000000000) * Py.len l)%Q.
Proof.
  intros Hfl. induction l as [|x l IH] using rev_ind; intros Hlen Hall.
  - change (Py.sum []) with 0%Q. change (sum_rounded fl []) with 0%Q.
    change (Py.len (@nil Q)) with 0%Q. split; split; lra.
  - rewrite length_app in Hlen. cbn [length] in Hlen.
    rewrite Forall_app, Forall_singleton in Hall. destruct Hall as [Hall Hx].
    destruct (IH ltac:(lia) Hall) as [Hs Hr].
    pose proof (len_le_5 l ltac:(lia)) as Hn.
    assert (Hn4 : (Py.len l <= 4)%Q).
    { unfold Py.len. change 4%Q with (inject_Z 4). rewrite <- Zle_Qle. lia. }
    rewrite sum_rounded_snoc, sum_snoc, len_snoc.
    pose proof (Hfl (sum_rounded fl l + x)%Q) as Hstep.
    set (n := Py.len l) in *. set (s := Py.sum l) in *.
    set (r := sum_rounded fl l) in *. clearbody n s r.
    assert (Hrange : (- (8000000) <= r + x <= 8000000)%Q) by (split; lra).
    specialize (Hstep Hrange). set (r' := fl (r + x)%Q) in *.
    split; split; lra.
Qed.

(** The floating-point value of [avg_time * 1.5] is within 10^-8 of
    1.5 * mean(h). *)
Lemma warm_timeout_value fl (h : list Q) :
  rounds_within fl 8000000 (1 # 1000000000) ->
  h <> [] -> (length h <= 5)%nat ->
  Forall (fun x => (0 <= x <= 1000000)%Q) h ->
  let y := fl (fl (sum_rounded fl h / Py.len h) * (3 # 2))%Q in
  ((3 # 2) * mean h - (1 # 100000000) <= y
   <= (3 # 2) * mean h + (1 # 100000000))%Q.
Proof.
  intros Hfl Hne Hlen Hall. cbv zeta.
  destruct (sum_rounded_close fl h Hfl Hlen Hall) as [Hs Hr].
  unfold mean.
  assert (Hn : exists k : Z, 1 <= k <= 5 /\ Py.len h = inject_Z k).
  { exists (Z.of_nat (length h)). split; [|reflexivity].
    destruct h; [congruence|]. cbn [length] in *. lia. }
  destruct Hn as (k & Hk & Hn). rewrite Hn in *. clear Hn.
  set (s := Py.sum h) in *. set (r := sum_rounded fl h) in *.
  clearbody s r.
  assert (Hcases : k = 1 \/ k = 2 \/ k = 3 \/ k = 4 \/ k = 5) by lia.
  destruct Hcases as [->|[->|[->|[->| ->]]]];
    match goal with
    | |- context [(r / inject_Z ?c)%Q] =>
        change (inject_Z c) with (c # 1)%Q in *;
        unfold Qdiv in *;
        change (/ (c # 1))%Q with (1 # (Z.to_pos c))%Q in *
    end; cbn [Z.to_pos] in *;
    match goal with
    | |- context [fl (r * ?c)%Q] =>
        assert (H1 := Hfl (r * c)%Q); set (a := fl (r * c)%Q) in *
    end;
    (lapply H1; [clear H1; intros H1|split; lra]);
    clearbody a; assert (H2 := Hfl (a * (3 # 2))%Q);
    (lapply H2; [clear H2; intros H2|split; lra]);
    split; lra.
Qed.

(** C1, as amended: for a history [h] of one to five latencies, as
    [record_success] keeps it, each between 0 and 10^6 seconds, a request
    that is not the cold first request gets max(int(y), 15) seconds, where
    [y] is the floating-point value of 1.5 * mean(h), within 10^-8 of the
    exact value: the adaptive value is cut to a whole number of seconds
    before the warm floor of 15 is applied.  The timeout is at least 15,
    at most max(1.5 * mean(h), 15) up to the rounding error, and less than
    one second below it up to the rounding error; it is not
    max(1.5 * mean(h), 15) itself.  The rounding [fl] of the
    floating-point operations is any function that is accurate to 10^-9 up
    to 8 * 10^6, as rounding to the nearest binary64 number is. *)
Theorem warm_timeout_tracks_adaptive_value (fl : Q -> Q) (h : list Q)
    (is_first : bool) (model_state : string) :
  rounds_within fl 8000000 (1 # 1000000000) ->
  h <> [] -> (length h <= 5)%nat ->
  Forall (fun x => (0 <= x <= 1000000)%Q) h ->
  String.eqb model_state "cold" && is_first = false ->
  exists y : Q,
    ((3 # 2) * mean h - (1 # 100000000) <= y
     <= (3 # 2) * mean h + (1 # 100000000))%Q
    /\ get_timeout_rounded fl (manager_with_history h) is_first model_state
       = Z.max (Py.int y) 15
    /\ 15 <= get_timeout_rounded fl (manager_with_history h) is_first
               model_state
    /\ (spec_next_timeout h - 1 - (1 # 100000000)
        < inject_Z (get_timeout_rounded fl (manager_with_history h) is_first
                      model_state)
        <= spec_next_timeout h + (1 # 100000000))%Q.
Proof.
  intros Hfl Hne Hlen Hall Hcold.
  pose proof (warm_timeout_value fl h Hfl Hne Hlen Hall) as Hy.
  cbv zeta in Hy.
  set (y := fl (fl (sum_rounded fl h / Py.len h) * (3 # 2))%Q) in *.
  assert (Ht : get_timeout_rounded fl (manager_with_history h) is_first
                 model_state = Z.max (Py.int y) 15).
  { unfold get_timeout_rounded. rewrite Hcold.
    cbn [manager_with_history performance_history warm_timeout
         AdaptiveTimeoutManager_init].
    destruct h; [congruence|reflexivity]. }
  exists y. rewrite Ht. split; [exact Hy|]. split; [reflexivity|].
  split; [apply Z.le_max_r|].
  destruct (int_trunc_bounds y) as (Hlow & Hnonneg & Hneg).
  assert (Hspec : ((3 # 2) * mean h <= spec_next_timeout h
                   /\ 15 <= spec_next_timeout h
                   /\ (spec_next_timeout h == (3 # 2) * mean h
                       \/ spec_next_timeout h == 15))%Q).
  { unfold spec_next_timeout. cbv zeta.
    destruct (Qle_bool 15 ((3 # 2) * mean h)) eqn:E.
    - apply Qle_bool_iff in E. split; [lra|]. split; [exact E|].
      left. reflexivity.
    - assert (~ (15 <= (3 # 2) * mean h)%Q) as E'.
      { intros H. apply Qle_bool_iff in H. congruence. }
      split; [lra|]. split; [lra|]. right. reflexivity. }
  destruct Hspec as (Hs1 & Hs2 & Hs3).
  clearbody y. set (m := mean h) in *. set (sp := spec_next_timeout h) in *.
  clearbody m sp.
  destruct (Z.max_spec (Py.int y) 15) as [[Hlt ->]|[Hge ->]].
  - change (inject_Z 15) with 15%Q.
    assert (Hi : (inject_Z (Py.int y) < 15)%Q).
    { change 15%Q with (inject_Z 15). rewrite <- Zlt_Qlt. exact Hlt. }
    split; [|lra]. destruct Hs3 as [Hs3|Hs3]; rewrite Hs3; lra.
  - assert (Hi : (15 <= inject_Z (Py.int y))%Q).
    { change 15%Q with (inject_Z 15). rewrite <- Zle_Qle. exact Hge. }
    assert (Hy0 : (0 <= y)%Q).
    { destruct (Qlt_le_dec y 0) as [Hyn|Hyp]; [|exact Hyp].
      specialize (Hneg (Qlt_le_weak _ _ Hyn)). lia. }
    specialize (Hnonneg Hy0).
    split; [|lra]. destruct Hs3 as [Hs3|Hs3]; rewrite Hs3; lra.
Qed.

(** The amended C1 at the history of the one latency 11.333333333333332,
    for a later request to a warm model, under rounding to multiples of
    2^-40. *)
Lemma warm_timeout_tracks_adaptive_value_witness :
  exists y : Q,
    ((3 # 2) * mean [binary64_11_333333333333332] - (1 # 100000000) <= y
     <= (3 # 2) * mean [binary64_11_333333333333332] + (1 # 100000000))%Q
    /\ get_timeout_rounded round_to_grid
         (manager_with_history [binary64_11_333333333333332]) false "warm"
       = Z.max (Py.int y) 15
    /\ 15 <= get_timeout_rounded round_to_grid
               (manager_with_history [binary64_11_333333333333332]) false
               "warm"
    /\ (spec_next_timeout [binary64_11_333333333333332] - 1 - (1 # 100000000)
        < inject_Z (get_timeout_rounded round_to_grid
                      (manager_with_history [binary64_11_333333333333332])
                      false "warm")
        <= spec_next_timeout [binary64_11_333333333333332]
           + (1 # 100000000))%Q.
Proof.
  apply (warm_timeout_tracks_adaptive_value round_to_grid
           [binary64_11_333333333333332] false "warm").
  - apply round_to_grid_accurate.
  - discriminate.
  - cbn; lia.
  - repeat constructor; vm_compute; discriminate.
  - reflexivity.
Defined.

(** The whole second can depend on the rounding: at the latency
    11.333333333333332 the exact product with 1.5 is just below 17 and is
    cut to 16, while its rounded value is 17. *)
Example rounding_decides_the_whole_second :
  get_timeout (manager_with_history [binary64_11_333333333333332]) false "warm"
  = 16
  /\ get_timeout_rounded round_to_grid
       (manager_with_history [binary64_11_333333333333332]) false "warm"
     = 17.
Proof. split; vm_compute; reflexivity. Qed.

(** C1 as stated fails: with the history [11.0] the code returns 16 where
    max(1.5 * mean(h), 15) is 16.5. *)
Lemma warm_timeout_not_exact :
  get_timeout (manager_with_history [11%Q]) false "warm" = 16
  /\ (spec_next_timeout [11%Q] == 33 # 2)%Q
  /\ ~ (inject_Z (get_timeout (manager_with_history [11%Q]) false "warm")
        == spec_next_timeout [11%Q])%Q.
Proof.
  split; [reflexivity|]. split; [reflexivity|].
  vm_compute. discriminate.
Qed.

(** * Properties of the state probe *)

Ltac run_monad :=
  unfold mbind, mret, M_bind, M_ret, Py.bind, Py.ret, Py.lift, Py.raise,
    Py.modify, Py.get, Py.try_except_all, Py.try_except.

Lemma any_named_exception name l r :
  any_named name l = Py.Raise r -> exists e, r = Py.Exception e.
Proof.
  induction l as [|v l IH]; cbn [any_named]; [discriminate|].
  destruct v; cbn; try (intros [= <-]; eexists; reflexivity).
  destruct (Py.eq_str _ _); [discriminate|exact IH].
Qed.

Lemma any_named_dicts name (entries : list (list (string * Py.json))) :
  any_named name (Py.JDict <$> entries)
  = Py.Ret (bool_decide (name ∈ omap entry_name entries)).
Proof.
  induction entries as [|e entries IH]; [reflexivity|].
  assert (Hn : omap entry_name (e :: entries)
               = match entry_name e with
                 | Some y => y :: omap entry_name entries
                 | None => omap entry_name entries
                 end) by reflexivity.
  rewrite Hn. clear Hn.
  cbn [fmap list_fmap any_named Py.dict_get].
  pose proof (eq_refl (entry_name e)) as Hen. unfold entry_name at 2 in Hen.
  destruct (Py.assoc "name" e) as [[| | | |s| |]|];
    rewrite Hen; cbn [Py.eq_str]; try exact IH.
  destruct (String.eqb_spec s name) as [->|Hne].
  - f_equal. symmetry. apply bool_decide_eq_true. left.
  - rewrite IH. f_equal. apply bool_decide_ext.
    rewrite elem_of_cons. split; [tauto|intros [H|H]; [congruence|exact H]].
Qed.

Lemma any_named_app name (before : list (list (string * Py.json)))
    (rest : list Py.json) :
  name ∉ omap entry_name before ->
  any_named name ((Py.JDict <$> before) ++ rest) = any_named name rest.
Proof.
  induction before as [|e before IH]; intros Hnot; [reflexivity|].
  assert (Hn : omap entry_name (e :: before)
               = match entry_name e with
                 | Some y => y :: omap entry_name before
                 | None => omap entry_name before
                 end) by reflexivity.
  rewrite Hn in Hnot. clear Hn.
  cbn [fmap list_fmap app any_named Py.dict_get].
  unfold entry_name in Hnot at 1.
  destruct (Py.assoc "name" e) as [[| | | |s| |]|]; cbn [Py.eq_str];
    try (apply IH; exact Hnot).
  destruct (String.eqb_spec s name) as [->|Hne].
  - exfalso. apply Hnot. left.
  - apply IH. intros H. apply Hnot. right. exact H.
Qed.

Lemma entry_name_hit name (hit : list (string * Py.json)) (rest : list Py.json) :
  entry_name hit = Some name ->
  any_named name (Py.JDict hit :: rest) = Py.Ret true.
Proof.
  intros Hhit. cbn [any_named Py.dict_get]. unfold entry_name in Hhit.
  destruct (Py.assoc "name" hit) as [[| | | |s| |]|]; try discriminate.
  injection Hhit as ->. cbn [Py.eq_str]. rewrite String.eqb_refl.
  reflexivity.
Qed.

(** The three ways the search through the entries can end. *)
Lemma any_named_cases name (l : list Py.json) :
  match any_named name l with
  | Py.Ret true =>
      exists before hit rest,
        l = (Py.JDict <$> before) ++ Py.JDict hit :: rest
        /\ (name ∉ omap entry_name before)
        /\ entry_name hit = Some name
  | Py.Ret false =>
      exists entries,
        l = Py.JDict <$> entries /\ name ∉ omap entry_name entries
  | Py.Raise _ =>
      exists before bad rest,
        l = (Py.JDict <$> before) ++ bad :: rest
        /\ (name ∉ omap entry_name before)
        /\ as_dict bad = None
  end.
Proof.
  induction l as [|v l IH].
  - exists []. split; [reflexivity|]. apply not_elem_of_nil.
  - destruct v as [| | | | | |kvs];
      try (cbn [any_named Py.dict_get]; eexists [], _, l;
           split; [reflexivity|];
           split; [apply not_elem_of_nil|reflexivity]).
    cbn [any_named Py.dict_get].
    assert (Hn : forall es, omap entry_name (kvs :: es)
                 = match entry_name kvs with
                   | Some y => y :: omap entry_name es
                   | None => omap entry_name es
                   end) by reflexivity.
    destruct (Py.eq_str
                match Py.assoc "name" kvs with
                | Some x => x
                | None => Py.JNull
                end name) eqn:Heq.
    + exists [], kvs, l. split; [reflexivity|].
      split; [apply not_elem_of_nil|]. unfold entry_name.
      destruct (Py.assoc "name" kvs) as [[| | | |s| |]|]; try discriminate.
      cbn [Py.eq_str] in Heq. apply String.eqb_eq in Heq. subst s.
      reflexivity.
    + assert (Hk : entry_name kvs <> Some name).
      { unfold entry_name.
        destruct (Py.assoc "name" kvs) as [[| | | |s| |]|]; try discriminate.
        cbn [Py.eq_str] in Heq. apply String.eqb_neq in Heq. congruence. }
      assert (Hcons : forall es, name ∉ omap entry_name es ->
                        name ∉ omap entry_name (kvs :: es)).
      { intros es Hes. rewrite Hn. destruct (entry_name kvs) as [y|];
          [|exact Hes].
        rewrite not_elem_of_cons. split; [congruence|exact Hes]. }
      destruct (any_named name l) as [[|]|r].
      * destruct IH as (before & hit & rest & -> & Hb & Hh).
        exists (kvs :: before), hit, rest.
        split; [reflexivity|]. split; [apply Hcons; exact Hb|exact Hh].
      * destruct IH as (entries & -> & He).
        exists (kvs :: entries). split; [reflexivity|]. apply Hcons; exact He.
      * destruct IH as (before & bad & rest & -> & Hb & Hbad).
        exists (kvs :: before), bad, rest.
        split; [reflexivity|]. split; [apply Hcons; exact Hb|exact Hbad].
Qed.

(** What the probe answers, reply by reply. *)
Lemma probe_run (got : reply) (self : ModelStateManager) :
  check_model_state got self
  = match got with
    | Threw _ => (Py.Ret "unknown", self)
    | Responded r =>
        if status_code r =? 200 then
          match probe_items r with
          | Some items =>
              match any_named MODEL items with
              | Py.Ret true => (Py.Ret "warm", set_is_warm true self)
              | Py.Ret false => (Py.Ret "cold", set_is_warm false self)
              | Py.Raise _ => (Py.Ret "unknown", self)
              end
          | None => (Py.Ret "unknown", self)
          end
        else (Py.Ret "unknown", self)
    end.
Proof.
  unfold check_model_state. run_monad.
  destruct got as [r|e]; cbn [requests_call]; run_monad; [|reflexivity].
  destruct (status_code r =? 200); [|reflexivity].
  unfold json, probe_items. destruct (body r) as [v|e]; run_monad;
    [|reflexivity].
  destruct v as [| | | | | |kvs]; try reflexivity.
  cbn [Py.dict_get].
  destruct (Py.assoc "models" kvs) as [[| | | |s|l|entries]|];
    try reflexivity; cbn [Py.iterate];
    match goal with
    | |- context [any_named MODEL ?items] =>
        destruct (any_named MODEL items) as [[|]|rr] eqn:Han;
        try reflexivity;
        destruct (any_named_exception _ _ _ Han) as [e ->]; reflexivity
    end.
Qed.

(** C4, as amended: the probe never raises: whatever the HTTP call did,
    and whatever the body of the response, it returns "warm", "cold" or
    "unknown".  It returns "warm" exactly when the status is 200 and,
    going through the entries of the list of loaded models, it meets an
    entry named MODEL before any entry that is not an object.  It returns
    "cold" exactly when the status is 200, every entry is an object, and
    none is named MODEL.  In every other case it returns "unknown": when
    the call raised, when the status is not 200 (another success status
    included), when the body cannot be decoded or has no list to go
    through, and when an entry that is not an object comes before any
    match. *)
Theorem probe_classifies (got : reply) (self : ModelStateManager) :
  exists state self',
    check_model_state got self = (Py.Ret state, self')
    /\ (state = "warm" \/ state = "cold" \/ state = "unknown")
    /\ (state = "warm"
        <-> exists r before hit rest,
              got = Responded r /\ status_code r = 200
              /\ probe_items r
                 = Some ((Py.JDict <$> before) ++ Py.JDict hit :: rest)
              /\ (MODEL ∉ omap entry_name before)
              /\ entry_name hit = Some MODEL)
    /\ (state = "cold"
        <-> exists r entries,
              got = Responded r /\ status_code r = 200
              /\ probe_items r = Some (Py.JDict <$> entries)
              /\ (MODEL ∉ omap entry_name entries))
    /\ ((forall r, got = Responded r -> status_code r <> 200) ->
        state = "unknown").
Proof.
  rewrite probe_run.
  assert (Hwarm : forall items before hit rest,
            items = (Py.JDict <$> before) ++ Py.JDict hit :: rest ->
            MODEL ∉ omap entry_name before ->
            entry_name hit = Some MODEL ->
            any_named MODEL items = Py.Ret true).
  { intros items before hit rest -> Hb Hh.
    rewrite any_named_app by exact Hb. apply entry_name_hit. exact Hh. }
  assert (Hcold : forall items entries,
            items = Py.JDict <$> entries ->
            MODEL ∉ omap entry_name entries ->
            any_named MODEL items = Py.Ret false).
  { intros items entries -> He. rewrite any_named_dicts.
    rewrite bool_decide_eq_false_2 by exact He. reflexivity. }
  destruct got as [r|e].
  2:{ eexists _, _. split; [reflexivity|]. split; [tauto|].
      split; [|split; [|reflexivity]]; (split; [discriminate|]).
      - intros (r & ? & ? & ? & ? & _). discriminate.
      - intros (r & ? & ? & _). discriminate. }
  destruct (Z.eqb_spec (status_code r) 200) as [Hst|Hst].
  2:{ eexists _, _. split; [reflexivity|]. split; [tauto|].
      split; [|split; [|reflexivity]]; (split; [discriminate|]).
      - intros (r' & ? & ? & ? & [= <-] & ? & _). contradiction.
      - intros (r' & ? & [= <-] & ? & _). contradiction. }
  destruct (probe_items r) as [items|] eqn:Hit.
  2:{ eexists _, _. split; [reflexivity|]. split; [tauto|].
      split; [|split; [|reflexivity]]; (split; [discriminate|]).
      - intros (r' & ? & ? & ? & [= <-] & _ & ? & _).
        rewrite Hit in *. discriminate.
      - intros (r' & ? & [= <-] & _ & ? & _). rewrite Hit in *. discriminate. }
  pose proof (any_named_cases MODEL items) as Hcases.
  destruct (any_named MODEL items) as [[|]|rr] eqn:Han.
  - eexists _, _. split; [reflexivity|]. split; [tauto|].
    split; [|split; [|intros H; destruct (H r eq_refl Hst)]]; split.
    + intros _. destruct Hcases as (before & hit & rest & -> & Hb & Hh).
      exists r, before, hit, rest. done.
    + reflexivity.
    + discriminate.
    + intros (r' & entries & [= <-] & _ & Hi & He). rewrite Hit in Hi.
      injection Hi as Hi. rewrite (Hcold _ _ Hi He) in Han. discriminate.
  - eexists _, _. split; [reflexivity|]. split; [tauto|].
    split; [|split; [|intros H; destruct (H r eq_refl Hst)]]; split.
    + discriminate.
    + intros (r' & before & hit & rest & [= <-] & _ & Hi & Hb & Hh).
      rewrite Hit in Hi. injection Hi as Hi.
      rewrite (Hwarm _ _ _ _ Hi Hb Hh) in Han. discriminate.
    + intros _. destruct Hcases as (entries & -> & He).
      exists r, entries. done.
    + reflexivity.
  - eexists _, _. split; [reflexivity|]. split; [tauto|].
    split; [|split; [|reflexivity]]; split.
    + discriminate.
    + intros (r' & before & hit & rest & [= <-] & _ & Hi & Hb & Hh).
      rewrite Hit in Hi. injection Hi as Hi.
      rewrite (Hwarm _ _ _ _ Hi Hb Hh) in Han. discriminate.
    + discriminate.
    + intros (r' & entries & [= <-] & _ & Hi & He). rewrite Hit in Hi.
      injection Hi as Hi. rewrite (Hcold _ _ Hi He) in Han. discriminate.
Qed.

(** C4 on three probes: the model among the loaded ones, the model absent
    from them, and a refused connection. *)
Lemma probe_classifies_witness :
  fst (check_model_state (Responded (ps_response ["llama3:8b"; MODEL]))
         ModelStateManager_init) = Py.Ret "warm"
  /\ fst (check_model_state (Responded (ps_response ["llama3:8b"]))
            ModelStateManager_init) = Py.Ret "cold"
  /\ fst (check_model_state (Threw connection_refused)
            ModelStateManager_init) = Py.Ret "unknown".
Proof.
  assert (Hother : MODEL ∉ omap entry_name
                     [[("name", Py.JStr "llama3:8b");
                       ("model", Py.JStr "llama3:8b")]]).
  { cbn. intros H. apply list_elem_of_singleton in H. discriminate H. }
  split; [|split].
  - destruct (probe_classifies (Responded (ps_response ["llama3:8b"; MODEL]))
                ModelStateManager_init)
      as (state & self' & Hrun & _ & Hwarm & _ & _).
    rewrite Hrun. cbn [fst]. f_equal. apply Hwarm.
    exists (ps_response ["llama3:8b"; MODEL]),
      [[("name", Py.JStr "llama3:8b"); ("model", Py.JStr "llama3:8b")]],
      [("name", Py.JStr MODEL); ("model", Py.JStr MODEL)], [].
    repeat (split; [reflexivity|]). split; [exact Hother|reflexivity].
  - destruct (probe_classifies (Responded (ps_response ["llama3:8b"]))
                ModelStateManager_init)
      as (state & self' & Hrun & _ & _ & Hcold & _).
    rewrite Hrun. cbn [fst]. f_equal. apply Hcold.
    exists (ps_response ["llama3:8b"]),
      [[("name", Py.JStr "llama3:8b"); ("model", Py.JStr "llama3:8b")]].
    repeat (split; [reflexivity|]). exact Hother.
  - destruct (probe_classifies (Threw connection_refused)
                ModelStateManager_init)
      as (state & self' & Hrun & _ & _ & _ & Hunknown).
    rewrite Hrun. cbn [fst]. f_equal. apply Hunknown.
    intros r [=].
Defined.

(** C4 as stated fails: the probe answers "unknown", not "warm", when
    MODEL is listed after an entry that is not an object, and when MODEL
    is listed in a response with the success status 201; and it answers
    "unknown", not "cold", when the list lacks MODEL but has an entry that
    is not an object. *)
Lemma listed_model_reported_unknown :
  fst (check_model_state
         (Responded (ps_listing [Py.JStr "junk";
                                 Py.JDict [("name", Py.JStr MODEL)]]))
         ModelStateManager_init) = Py.Ret "unknown"
  /\ fst (check_model_state
            (Responded {| status_code := 201; reason := "Created";
                          body := body (ps_response [MODEL]) |})
            ModelStateManager_init) = Py.Ret "unknown"
  /\ fst (check_model_state
            (Responded (ps_listing [Py.JDict [("name", Py.JStr "llama3:8b")];
                                    Py.JInt 5]))
            ModelStateManager_init) = Py.Ret "unknown".
Proof. repeat split; reflexivity. Qed.

(** * Properties of the request functions *)

Lemma excerpt_run (v : Py.json) :
  match excerpt v with
  | Some text =>
      exists t, Py.dict_get v "response" (Py.JStr "") = Py.Ret t
             /\ Py.slice_concat t 100 "..." = Py.Ret text
  | None =>
      (exists e,
         Py.dict_get v "response" (Py.JStr "") = Py.Raise (Py.Exception e))
      \/ (exists t e,
            Py.dict_get v "response" (Py.JStr "") = Py.Ret t
            /\ Py.slice_concat t 100 "..." = Py.Raise (Py.Exception e))
  end.
Proof.
  destruct v as [| | | | | |kvs]; cbn;
    try (left; eexists; reflexivity).
  destruct (Py.assoc "response" kvs) as [[| | | |s| |]|]; cbn;
    try (right; eexists _, _; split; reflexivity);
    eexists; split; reflexivity.
Qed.

Lemma sync_request_outcome (x : exchange reply) (prompt0 : string)
    (timeout : Z) (s : sync_store) :
  exists o s',
    enhanced_sync_request x prompt0 timeout s = (Py.Ret o, s')
    /\ prompt o = prompt0 /\ method o = "sync"
    /\ outcome_of_reply requests_status_error (clock x) (ticks s) (answer x) o.
Proof.
  unfold enhanced_sync_request, outcome_of_reply, requests_status_error,
    requests_raise_for_status, sync_perf_counter, json.
  run_monad. cbn [ticks timeout_manager].
  destruct (answer x) as [r|e]; cbn [requests_call]; run_monad.
  2:{ unfold error_tag, failed_with. destruct (Py.exn_is_timeout e);
      eexists _, _; repeat split; reflexivity. }
  destruct ((400 <=? status_code r) && (status_code r <? 600)); run_monad.
  { cbn. eexists _, _. repeat split; reflexivity. }
  cbn [ticks timeout_manager on_timeout_manager].
  destruct (body r) as [v|e]; run_monad.
  2:{ unfold error_tag, failed_with. cbn. destruct (Py.exn_is_timeout e);
      eexists _, _; repeat split; reflexivity. }
  pose proof (excerpt_run v) as Hex. unfold body_error.
  destruct (excerpt v) as [text|].
  - destruct Hex as (t & -> & ->). eexists _, _. repeat split; reflexivity.
  - destruct Hex as [[e ->]|(t & e & -> & ->)]; cbn;
      unfold failed_with, error_tag; destruct (Py.exn_is_timeout e) eqn:Et;
      eexists _, _; (split; [reflexivity|]); cbn;
      (split; [reflexivity|]); (split; [reflexivity|]);
      exists e; rewrite Et; repeat split; reflexivity.
Qed.

Lemma async_request_outcome (c : nat -> Q) (got : reply) (prompt0 : string)
    (timeout : Z) (n : nat) :
  exists o n',
    enhanced_async_request {| clock := c; answer := Settled got |}
      prompt0 timeout n = (Py.Ret o, n')
    /\ prompt o = prompt0 /\ method o = "async"
    /\ outcome_of_reply httpx_status_error c n got o.
Proof.
  unfold enhanced_async_request, outcome_of_reply, httpx_status_error,
    httpx_raise_for_status, async_perf_counter, json.
  run_monad. cbn [clock answer httpx_call].
  destruct got as [r|e]; cbn [requests_call]; run_monad.
  2:{ unfold error_tag, failed_with. destruct (Py.exn_is_timeout e);
      eexists _, _; repeat split; reflexivity. }
  destruct ((200 <=? status_code r) && (status_code r <=? 299)); run_monad.
  2:{ cbn. eexists _, _. repeat split; reflexivity. }
  destruct (body r) as [v|e]; run_monad.
  2:{ unfold error_tag, failed_with. cbn. destruct (Py.exn_is_timeout e);
      eexists _, _; repeat split; reflexivity. }
  pose proof (excerpt_run v) as Hex. unfold body_error.
  destruct (excerpt v) as [text|].
  - destruct Hex as (t & -> & ->). eexists _, _. repeat split; reflexivity.
  - destruct Hex as [[e ->]|(t & e & -> & ->)]; cbn;
      unfold failed_with, error_tag; destruct (Py.exn_is_timeout e) eqn:Et;
      eexists _, _; (split; [reflexivity|]); cbn;
      (split; [reflexivity|]); (split; [reflexivity|]);
      exists e; rewrite Et; repeat split; reflexivity.
Qed.

Lemma async_request_cancelled (c : nat -> Q) (prompt0 : string)
    (timeout : Z) (n : nat) :
  enhanced_async_request {| clock := c; answer := Cancelled |} prompt0 timeout n
  = (Py.Raise Py.CancelledError, S n).
Proof. reflexivity. Qed.

(** C3, as amended: a dispatch whose HTTP call returned a response or
    raised an [Exception] never raises: it returns an outcome dict for its
    prompt, in SYNC mode and from the coroutine of the ASYNC and
    CONCURRENT modes.  On a timeout the outcome has success false, the tag
    "timeout" and as latency the time that elapsed up to the handler.  Any
    other exception (a transport failure, an error status, a body that
    cannot be decoded or used) gives success false and, as error type, the
    class name of that exception; there is no grouping into a connection
    kind and a catch-all kind. *)
Theorem dispatch_files_exception_by_class (x : exchange reply)
    (c : nat -> Q) (got : reply) (prompt0 : string) (timeout : Z)
    (s : sync_store) (n : nat) :
  (exists o s',
     enhanced_sync_request x prompt0 timeout s = (Py.Ret o, s')
     /\ prompt o = prompt0 /\ method o = "sync"
     /\ outcome_of_reply requests_status_error (clock x) (ticks s)
          (answer x) o)
  /\ (exists o n',
        enhanced_async_request {| clock := c; answer := Settled got |}
          prompt0 timeout n = (Py.Ret o, n')
        /\ prompt o = prompt0 /\ method o = "async"
        /\ outcome_of_reply httpx_status_error c n got o).
Proof.
  split; [apply sync_request_outcome|apply async_request_outcome].
Qed.

(** C3 as stated fails: a 500 status and an undecodable body, two failures
    that are neither timeouts nor transport failures, are filed under two
    different error types ("HTTPError" and "JSONDecodeError"), so there
    is no one kind that every other failure gets. *)
Lemma other_failures_have_no_common_kind :
  ~ exists other : string,
      Forall (fun r =>
                exists o s',
                  enhanced_sync_request (sync_exchange (Responded r))
                    "Say hello" 15 fresh_sync_store = (Py.Ret o, s')
                  /\ error_type o = Some other)
             [server_error_response; undecodable_response].
Proof.
  intros (other & H).
  apply Forall_cons in H as [(o1 & s1 & H1 & E1) H].
  apply Forall_cons in H as [(o2 & s2 & H2 & E2) _].
  vm_compute in H1. vm_compute in H2.
  injection H1 as <- _. injection H2 as <- _.
  cbn in E1, E2. congruence.
Qed.

(** A body that decodes but cannot be used is filed under the class of
    the exception that its use raises: a JSON list has no [get], and
    neither a number nor an object under ["response"] gives a slice that
    can be added to a str. *)
Example unusable_body_is_filed_by_class :
  let filed v :=
    match fst (enhanced_sync_request
                 (sync_exchange
                    (Responded {| status_code := 200; reason := "OK";
                                  body := Decoded v |}))
                 "Say hello" 15 fresh_sync_store) with
    | Py.Ret o => error_type o
    | Py.Raise _ => None
    end in
  filed (Py.JList []) = Some "AttributeError"
  /\ filed (Py.JDict [("response", Py.JInt 5)]) = Some "TypeError"
  /\ filed (Py.JDict [("response", Py.JDict [])]) = Some "TypeError".
Proof. repeat split; vm_compute; reflexivity. Qed.

(** * The latency history across the dispatch modes *)

Lemma sync_success_recorded (x : exchange reply) (prompt0 : string)
    (timeout : Z) (s s' : sync_store) (o : outcome) :
  enhanced_sync_request x prompt0 timeout s = (Py.Ret o, s') ->
  success o = true ->
  timeout_manager s'
  = record_success (timeout_manager s) (latency_ms o / 1000)%Q.
Proof.
  unfold enhanced_sync_request, requests_raise_for_status, sync_perf_counter,
    json.
  run_monad. cbn [ticks timeout_manager].
  destruct (answer x) as [r|e]; cbn [requests_call]; run_monad.
  2:{ destruct (Py.exn_is_timeout e); intros [= <- <-]; discriminate. }
  destruct ((400 <=? status_code r) && (status_code r <? 600)); run_monad.
  { cbn. intros [= <- <-]; discriminate. }
  cbn [ticks timeout_manager on_timeout_manager].
  destruct (body r) as [v|e]; run_monad.
  2:{ destruct (Py.exn_is_timeout e); intros [= <- <-]; discriminate. }
  destruct (Py.dict_get v "response" (Py.JStr "")) as [t|[e|]].
  - destruct (Py.slice_concat t 100 "...") as [text|[e|]].
    + intros [= <- <-] _. reflexivity.
    + destruct (Py.exn_is_timeout e); intros [= <- <-]; discriminate.
    + discriminate.
  - destruct (Py.exn_is_timeout e); intros [= <- <-]; discriminate.
  - discriminate.
Qed.

(** A request that fails before its response is accepted (the call raised,
    or the status is an error status) leaves the history as it was. *)
Lemma rejected_reply_keeps_history (x : exchange reply) (prompt0 : string)
    (timeout : Z) (s : sync_store) :
  match answer x with
  | Threw _ => True
  | Responded r => requests_status_error r <> None
  end ->
  timeout_manager (snd (enhanced_sync_request x prompt0 timeout s))
  = timeout_manager s.
Proof.
  unfold enhanced_sync_request, requests_status_error,
    requests_raise_for_status, sync_perf_counter.
  run_monad. cbn [ticks timeout_manager].
  destruct (answer x) as [r|e]; cbn [requests_call]; run_monad.
  - destruct ((400 <=? status_code r) && (status_code r <? 600));
      [reflexivity|congruence].
  - destruct (Py.exn_is_timeout e); reflexivity.
Qed.

Lemma async_requests_manager (work : list (string * exchange areply)) :
  forall b,
    main_timeout_manager (snd (async_requests work b)) = main_timeout_manager b.
Proof.
  induction work as [|[prompt0 x] work IH]; intros b; [reflexivity|].
  cbn [async_requests]. run_monad. unfold await.
  destruct (enhanced_async_request x prompt0 _ 0%nat) as [[o|r] n'];
    cbn [fst snd]; [|reflexivity].
  rewrite IH. reflexivity.
Qed.

Lemma concurrent_requests_manager (work : list (string * exchange areply))
    (order : list nat) (b b' : main_store) :
  concurrent_requests work order b = Some b' ->
  main_timeout_manager b' = main_timeout_manager b.
Proof.
  unfold concurrent_requests. cbv zeta.
  destruct (gather _ order) as [rs|]; cbn; [|discriminate].
  intros [= <-]. reflexivity.
Qed.

(** Over the whole run of steps 5 to 8 the manager is the one that the
    SYNC loop left. *)
Lemma benchmark_history_is_sync_history (model_state : string)
    (sync_work : list (string * exchange reply))
    (async_work concurrent_work : list (string * exchange areply))
    (order : list nat) (r : Py.res (list row)) (b : main_store) :
  benchmark model_state sync_work async_work concurrent_work order
  = Some (r, b) ->
  main_timeout_manager b
  = main_timeout_manager
      (snd (sync_requests model_state 0 sync_work fresh_main_store)).
Proof.
  unfold benchmark. cbv zeta. run_monad. fold fresh_main_store.
  destruct (sync_requests model_state 0 sync_work fresh_main_store)
    as [[u|rr] b1]; cbn [snd].
  - pose proof (async_requests_manager async_work b1) as Ha.
    destruct (async_requests async_work b1) as [[u2|rr] b2]; cbn [snd] in Ha.
    + destruct (concurrent_requests concurrent_work order b2) as [b3|] eqn:Hc;
        cbn; [|discriminate].
      intros [= <- <-]. apply concurrent_requests_manager in Hc. congruence.
    + intros [= <- <-]. exact Ha.
  - intros [= <- <-]. reflexivity.
Qed.

(** C5, as amended: only the SYNC dispatch feeds the history.  A
    successful [enhanced_sync_request] has called [record_success] with its
    elapsed time in seconds; the ASYNC loop and the CONCURRENT batch leave
    the timeout manager, and so the history, exactly as they found it. *)
Theorem only_sync_feeds_history (x : exchange reply) (prompt0 : string)
    (timeout : Z) (s s' : sync_store) (o : outcome)
    (async_work concurrent_work : list (string * exchange areply))
    (order : list nat) (b b' : main_store) :
  enhanced_sync_request x prompt0 timeout s = (Py.Ret o, s') ->
  success o = true ->
  concurrent_requests concurrent_work order b = Some b' ->
  timeout_manager s'
  = record_success (timeout_manager s) (latency_ms o / 1000)%Q
  /\ main_timeout_manager (snd (async_requests async_work b))
     = main_timeout_manager b
  /\ main_timeout_manager b' = main_timeout_manager b.
Proof.
  intros Hrun Hok Hconc. split; [|split].
  - eapply sync_success_recorded; eassumption.
  - apply async_requests_manager.
  - eapply concurrent_requests_manager; eassumption.
Qed.

(** The amended C5 on a successful request of each mode. *)
Lemma only_sync_feeds_history_witness :
  timeout_manager
    {| ticks := 2;
       timeout_manager :=
         record_success AdaptiveTimeoutManager_init
           (latency_ms (hello_outcome "sync") / 1000)%Q |}
  = record_success (timeout_manager fresh_sync_store)
      (latency_ms (hello_outcome "sync") / 1000)%Q
  /\ main_timeout_manager (snd (async_requests hello_work fresh_main_store))
     = main_timeout_manager fresh_main_store
  /\ main_timeout_manager
       {| main_timeout_manager := AdaptiveTimeoutManager_init;
          main_results := [hello_outcome "concurrent"] |}
     = main_timeout_manager fresh_main_store.
Proof.
  apply (only_sync_feeds_history
           (sync_exchange (Responded ok_response)) "Say hello" 15
           fresh_sync_store _ (hello_outcome "sync")
           hello_work hello_work [0%nat] fresh_main_store);
    vm_compute; reflexivity.
Defined.

Lemma record_success_nonempty (tm : AdaptiveTimeoutManager) (x : Q) :
  performance_history (record_success tm x) <> [].
Proof.
  cbn. unfold push_latency. cbv zeta.
  destruct (Nat.ltb_spec 5 (length (performance_history tm ++ [x]))) as [H|H].
  - destruct (performance_history tm ++ [x]) as [|a [|b l]];
      cbn in H; [lia|lia|discriminate].
  - destruct (performance_history tm); discriminate.
Qed.

(** C5 as stated fails: an ASYNC request and a CONCURRENT request that
    succeed are appended to the results, and the history stays empty,
    which it never is after a call of [record_success]. *)
Lemma async_success_is_not_recorded :
  fst (async_requests hello_work fresh_main_store) = Py.Ret tt
  /\ flags <$> main_results (snd (async_requests hello_work fresh_main_store))
     = [("async", true)]
  /\ performance_history
       (main_timeout_manager (snd (async_requests hello_work fresh_main_store)))
     = []
  /\ (fun b => flags <$> main_results b)
       <$> concurrent_requests hello_work [0%nat] fresh_main_store
     = Some [("concurrent", true)]
  /\ (fun b => performance_history (main_timeout_manager b))
       <$> concurrent_requests hello_work [0%nat] fresh_main_store
     = Some []
  /\ forall x, performance_history
                 (record_success (main_timeout_manager fresh_main_store) x)
               <> [].
Proof.
  repeat (split; [vm_compute; reflexivity|]).
  intros x. apply record_success_nonempty.
Qed.

(** C6 fails on the code: a response with status 200 whose body cannot be
    decoded is recorded as a success, [record_success] being called before
    [response.json()], and then reported as a failed outcome.  The history,
    empty before the request, holds the half second of that request
    after it. *)
Theorem undecodable_body_enters_history :
  exists o s',
    enhanced_sync_request (sync_exchange (Responded undecodable_response))
      "Say hello" 15 fresh_sync_store = (Py.Ret o, s')
    /\ success o = false
    /\ error_type o = Some "JSONDecodeError"
    /\ performance_history (timeout_manager fresh_sync_store) = []
    /\ Forall2 Qeq (performance_history (timeout_manager s')) [1 # 2].
Proof.
  eexists _, _. split; [reflexivity|].
  repeat (split; [reflexivity|]).
  repeat constructor.
Qed.

(** * The concurrent batch *)

Lemma complete_length tasks slots i :
  length (complete tasks slots i) = length slots.
Proof. unfold complete. destruct (tasks !! i); [apply length_insert|done]. Qed.

(** What slot [j] holds after the tasks of [order] have completed. *)
Lemma foldl_complete_lookup tasks order : forall slots j,
  length slots = length tasks ->
  foldl (complete tasks) slots order !! j
  = match tasks !! j with
    | Some task =>
        if bool_decide (j ∈ order) then Some (Some (fst (task 0%nat)))
        else slots !! j
    | None => slots !! j
    end.
Proof.
  induction order as [|i order IH]; intros slots j Hlen.
  - cbn. destruct (tasks !! j); reflexivity.
  - cbn [foldl]. rewrite IH by (rewrite complete_length; exact Hlen).
    destruct (tasks !! j) as [task|] eqn:Hj.
    + destruct (decide (j = i)) as [->|Hne].
      * rewrite (bool_decide_eq_true_2 (i ∈ i :: order)) by left.
        unfold complete. rewrite Hj.
        rewrite list_lookup_insert_eq
          by (rewrite Hlen; eapply lookup_lt_Some; exact Hj).
        destruct (bool_decide (i ∈ order)); reflexivity.
      * rewrite (bool_decide_ext (j ∈ i :: order) (j ∈ order))
          by (rewrite elem_of_cons; tauto).
        destruct (bool_decide (j ∈ order)); [reflexivity|].
        unfold complete. destruct (tasks !! i); [|reflexivity].
        apply list_lookup_insert_ne. congruence.
    + unfold complete. destruct (tasks !! i) eqn:Hi; [|reflexivity].
      apply list_lookup_insert_ne. intros ->. congruence.
Qed.

(** Once every task has completed, in whatever order, [gather] returns the
    results in task order. *)
Lemma gather_all_complete tasks order :
  order ≡ₚ seq 0 (length tasks) ->
  gather tasks order
  = Some ((fun task : Py.M nat outcome => fst (task 0%nat)) <$> tasks).
Proof.
  intros Hperm. unfold gather.
  assert (Hslots : gather_slots tasks order
                   = Some <$> ((fun task : Py.M nat outcome => fst (task 0%nat))
                               <$> tasks)).
  { apply list_eq. intros j. unfold gather_slots.
    rewrite foldl_complete_lookup by apply length_replicate.
    rewrite !list_lookup_fmap.
    destruct (tasks !! j) as [task|] eqn:Hj; cbn.
    - rewrite bool_decide_eq_true_2; [reflexivity|].
      rewrite Hperm. apply elem_of_seq. apply lookup_lt_Some in Hj.
      unfold Py.M in *. lia.
    - apply lookup_replicate_None. apply lookup_ge_None in Hj.
      unfold Py.M in *. lia. }
  rewrite Hslots.
  generalize ((fun task : Py.M nat outcome => fst (task 0%nat)) <$> tasks).
  intros l. induction l as [|a l IH]; [reflexivity|].
  cbn. cbn in IH. rewrite IH. reflexivity.
Qed.

Lemma append_dicts_omap (rs : list (Py.res outcome)) : forall results,
  append_dicts rs results
  = results ++ omap (fun r => match r with
                             | Py.Ret o => Some (with_method "concurrent" o)
                             | Py.Raise _ => None
                             end) rs.
Proof.
  induction rs as [|[o|r] rs IH]; intros results; cbn.
  - rewrite app_nil_r. reflexivity.
  - rewrite IH, <- app_assoc. reflexivity.
  - apply IH.
Qed.

Lemma concurrent_entry_omap (timeout : Z)
    (work : list (string * exchange areply)) :
  omap (fun r => match r with
                 | Py.Ret o => Some (with_method "concurrent" o)
                 | Py.Raise _ => None
                 end)
       ((fun task : Py.M nat outcome => fst (task 0%nat))
          <$> map (fun w => enhanced_async_request (snd w) (fst w) timeout)
                work)
  = omap (concurrent_entry timeout) work.
Proof.
  induction work as [|w work IH]; [reflexivity|].
  cbn [map fmap list_fmap omap list_omap]. cbn [fmap list_fmap] in IH.
  rewrite IH. reflexivity.
Qed.

Lemma concurrent_entry_settled timeout p c got :
  exists o,
    concurrent_entry timeout (p, {| clock := c; answer := Settled got |})
    = Some o
    /\ prompt o = p /\ method o = "concurrent".
Proof.
  unfold concurrent_entry. cbn [fst snd].
  destruct (async_request_outcome c got p timeout 0)
    as (o & n' & -> & Hp & _).
  eexists. split; [reflexivity|]. split; [exact Hp|reflexivity].
Qed.

Lemma concurrent_entries_prompts timeout
    (work : list (string * exchange areply)) :
  prompt <$> omap (concurrent_entry timeout) work
  = fst <$> filter (fun w => is_cancelled w = false) work
  /\ Forall (fun o => method o = "concurrent")
       (omap (concurrent_entry timeout) work).
Proof.
  induction work as [|[p [c [got|]]] work [IHp IHm]]; [by split|..].
  - destruct (concurrent_entry_settled timeout p c got) as (o & Ho & Hp & Hm).
    cbn [omap list_omap]. rewrite Ho.
    rewrite filter_cons_True by reflexivity.
    cbn [fmap list_fmap fst]. cbn [fmap] in IHp. rewrite IHp, Hp.
    split; [reflexivity|]. constructor; assumption.
  - cbn [omap list_omap].
    rewrite filter_cons_False by discriminate.
    change (concurrent_entry timeout (p, {| clock := c; answer := Cancelled |}))
      with (@None outcome).
    split; assumption.
Qed.

(** C2, as amended: whatever the order in which the requests of a
    CONCURRENT batch complete, the batch appends to the results exactly one
    outcome, relabelled "concurrent", for every prompt whose coroutine
    returned a dict, failed requests included, in the original prompt
    order; the exception object that [gather] delivers for a coroutine
    that raised is skipped, so that prompt gets no outcome. *)
Theorem concurrent_outcomes_in_prompt_order
    (work : list (string * exchange areply)) (order : list nat)
    (b : main_store) :
  order ≡ₚ seq 0 (length work) ->
  let timeout := get_timeout (main_timeout_manager b) false "warm" in
  let appended := omap (concurrent_entry timeout) work in
  concurrent_requests work order b
  = Some {| main_timeout_manager := main_timeout_manager b;
            main_results := main_results b ++ appended |}
  /\ prompt <$> appended
     = fst <$> filter (fun w => is_cancelled w = false) work
  /\ Forall (fun o => method o = "concurrent") appended.
Proof.
  intros Hperm timeout appended. split.
  - unfold concurrent_requests. cbv zeta. fold timeout.
    rewrite gather_all_complete by (rewrite length_map; exact Hperm).
    cbn [mbind option_bind]. rewrite append_dicts_omap, concurrent_entry_omap.
    reflexivity.
  - apply concurrent_entries_prompts.
Qed.

(** The amended C2 on a batch of three whose second request is cancelled
    and whose responses complete in the order 2, 0, 1. *)
Lemma concurrent_outcomes_in_prompt_order_witness :
  let work :=
    [("Say hello", async_exchange (Settled (Responded ok_response)));
     ("What is 2+2?", async_exchange Cancelled);
     ("Explain Python in one sentence",
      async_exchange (Settled (Threw read_timeout)))] in
  let appended := omap (concurrent_entry 15) work in
  concurrent_requests work [2; 0; 1]%nat fresh_main_store
  = Some {| main_timeout_manager := main_timeout_manager fresh_main_store;
            main_results := main_results fresh_main_store ++ appended |}
  /\ prompt <$> appended
     = fst <$> filter (fun w => is_cancelled w = false) work
  /\ Forall (fun o => method o = "concurrent") appended.
Proof.
  intros work.
  apply (concurrent_outcomes_in_prompt_order work [2; 0; 1]%nat
           fresh_main_store).
  vm_compute.
  eapply perm_trans; [apply perm_swap|apply perm_skip, perm_swap].
Defined.

(** C2 as stated fails: of a batch of three prompts whose second coroutine
    raised, only two outcomes are appended, those of the first and the
    third prompt. *)
Lemma raising_request_is_dropped :
  (fun b => prompt <$> main_results b)
    <$> concurrent_requests
          [("Say hello", async_exchange (Settled (Responded ok_response)));
           ("What is 2+2?", async_exchange Cancelled);
           ("Explain Python in one sentence",
            async_exchange (Settled (Threw read_timeout)))]
          [0; 1; 2]%nat fresh_main_store
  = Some ["Say hello"; "Explain Python in one sentence"].
Proof. vm_compute. reflexivity. Qed.

(** * Properties of the report *)

Lemma filter_method_length (m : string) (results : list outcome) :
  length (filter (fun r => method r = m) results) = total_count m results.
Proof.
  induction results as [|r rest IH]; [reflexivity|].
  rewrite filter_cons. cbn [total_count].
  destruct (String.eqb_spec (method r) m) as [E|E].
  - rewrite decide_True by exact E. cbn. rewrite IH. reflexivity.
  - rewrite decide_False by exact E. rewrite IH. reflexivity.
Qed.

Lemma filter_success_length (m : string) (results : list outcome) :
  length (filter (fun r => success r = true)
            (filter (fun r => method r = m) results))
  = successful_count m results.
Proof.
  induction results as [|r rest IH]; [reflexivity|].
  rewrite filter_cons. cbn [successful_count].
  destruct (String.eqb_spec (method r) m) as [E|E].
  - rewrite decide_True by exact E. rewrite filter_cons.
    destruct (success r) eqn:Hs.
    + rewrite decide_True by reflexivity. cbn. rewrite IH. reflexivity.
    + rewrite decide_False by discriminate. rewrite IH. reflexivity.
  - rewrite decide_False by exact E. rewrite IH. reflexivity.
Qed.

Lemma foldl_Qplus (l : list Q) (a : Q) :
  (foldl Qplus a l == a + foldl Qplus 0 l)%Q.
Proof.
  revert a. induction l as [|x l IH]; intros a; cbn [foldl].
  - ring.
  - rewrite (IH (a + x)%Q), (IH (0 + x)%Q). ring.
Qed.

Lemma sum_cons (x : Q) (l : list Q) : (Py.sum (x :: l) == x + Py.sum l)%Q.
Proof.
  unfold Py.sum. cbn [foldl]. rewrite foldl_Qplus. ring.
Qed.

Lemma sum_successful_latency (m : string) (results : list outcome) :
  (Py.sum (map latency_ms
             (filter (fun r => success r = true)
                (filter (fun r => method r = m) results)))
   == successful_latency m results)%Q.
Proof.
  induction results as [|r rest IH]; [reflexivity|].
  rewrite filter_cons. cbn [successful_latency].
  destruct (String.eqb_spec (method r) m) as [E|E].
  - rewrite decide_True by exact E. rewrite filter_cons.
    destruct (success r) eqn:Hs.
    + rewrite decide_True by reflexivity. cbn [map andb].
      rewrite sum_cons, IH. reflexivity.
    + rewrite decide_False by discriminate. exact IH.
  - rewrite decide_False by exact E. exact IH.
Qed.

Lemma method_row_spec (results : list outcome) (m : string) :
  match method_row results m with
  | None => total_count m results = 0%nat
  | Some r =>
      total_count m results <> 0%nat
      /\ row_method r = m
      /\ (row_success_rate r == spec_success_rate m results)%Q
      /\ (row_avg_latency r == spec_avg_latency m results)%Q
      /\ row_optimization r = tag_of m (row_success_rate r) (row_avg_latency r)
  end.
Proof.
  unfold method_row. cbv zeta.
  pose proof (filter_method_length m results) as Ht.
  pose proof (filter_success_length m results) as Hs.
  pose proof (sum_successful_latency m results) as Hl.
  destruct (filter (fun r => method r = m) results) as [|r0 mr] eqn:Hmr.
  - cbn in Ht. symmetry. exact Ht.
  - cbn [row_method row_success_rate row_avg_latency row_optimization].
    split; [rewrite <- Ht; discriminate|]. split; [reflexivity|].
    split; [|split; [|reflexivity]].
    + unfold spec_success_rate, Py.len. rewrite <- Ht, <- Hs. reflexivity.
    + unfold spec_avg_latency. rewrite <- Hs.
      destruct (filter (fun r => success r = true) (r0 :: mr)) as [|r1 sr].
      * reflexivity.
      * cbn [length Nat.eqb]. unfold Py.len. rewrite Hl. reflexivity.
Qed.

Lemma Qltb_lt (x y : Q) : Py.Qltb x y = true <-> (x < y)%Q.
Proof.
  unfold Py.Qltb. rewrite Qlt_alt.
  destruct (x ?= y)%Q; split; congruence.
Qed.

Lemma tag_of_healthy (m : string) (rate avg : Q) :
  m ∈ methods ->
  negb (String.eqb (tag_of m rate avg) needs_tuning) = true
  <-> (m = "sync" /\ (rate == 100)%Q)
      \/ (m = "async" /\ (avg < 5000)%Q)
      \/ (m = "concurrent" /\ (80 < rate)%Q).
Proof.
  unfold methods. rewrite !elem_of_cons, elem_of_nil.
  intros [->|[->|[->|[]]]]; unfold tag_of; cbn [String.eqb Ascii.eqb Bool.eqb andb].
  - destruct (Qeq_bool rate 100) eqn:E.
    + apply Qeq_bool_iff in E. split; [intros _; left; done|reflexivity].
    + split; [discriminate|]. intros [[_ H]|[[H _]|[H _]]]; try discriminate.
      apply Qeq_bool_iff in H. congruence.
  - destruct (Py.Qltb avg 5000) eqn:E.
    + apply Qltb_lt in E. split; [intros _; right; left; done|reflexivity].
    + split; [discriminate|]. intros [[H _]|[[_ H]|[H _]]]; try discriminate.
      apply Qltb_lt in H. congruence.
  - destruct (Py.Qltb 80 rate) eqn:E.
    + apply Qltb_lt in E. split; [intros _; right; right; done|reflexivity].
    + split; [discriminate|]. intros [[H _]|[[H _]|[_ H]]]; try discriminate.
      apply Qltb_lt in H. congruence.
Qed.

Lemma rows_from_methods (results : list outcome) (r : row) :
  r ∈ analyze_enhanced_results results ->
  row_method r ∈ methods
  /\ method_row results (row_method r) = Some r.
Proof.
  unfold analyze_enhanced_results. rewrite list_elem_of_omap.
  intros (m & Hm & Hrow).
  pose proof (method_row_spec results m) as Hspec. rewrite Hrow in Hspec.
  destruct Hspec as (_ & -> & _). split; assumption.
Qed.

(** The tag of a mode, test by test. *)
Lemma tag_of_cases (m : string) (rate avg : Q) :
  m ∈ methods ->
  (m = "sync" /\ (rate == 100)%Q
   /\ tag_of m rate avg = "✅ State mgmt working")
  \/ (m = "async" /\ (avg < 5000)%Q
      /\ tag_of m rate avg = "✅ Timeouts optimized")
  \/ (m = "concurrent" /\ (80 < rate)%Q
      /\ tag_of m rate avg = "✅ Parallel efficiency")
  \/ (~ (m = "sync" /\ (rate == 100)%Q)
      /\ ~ (m = "async" /\ (avg < 5000)%Q)
      /\ ~ (m = "concurrent" /\ (80 < rate)%Q)
      /\ tag_of m rate avg = needs_tuning).
Proof.
  unfold methods. rewrite !elem_of_cons, elem_of_nil.
  intros [->|[->|[->|[]]]]; unfold tag_of;
    cbn [String.eqb Ascii.eqb Bool.eqb andb].
  - destruct (Qeq_bool rate 100) eqn:E.
    + apply Qeq_bool_iff in E. left. done.
    + right. right. right. repeat split; try (intros [? _]; discriminate).
      intros [_ H]. apply Qeq_bool_iff in H. congruence.
  - destruct (Py.Qltb avg 5000) eqn:E.
    + apply Qltb_lt in E. right. left. done.
    + right. right. right. repeat split; try (intros [? _]; discriminate).
      intros [_ H]. apply Qltb_lt in H. congruence.
  - destruct (Py.Qltb 80 rate) eqn:E.
    + apply Qltb_lt in E. right. right. left. done.
    + right. right. right. repeat split; try (intros [? _]; discriminate).
      intros [_ H]. apply Qltb_lt in H. congruence.
Qed.

(** C10: every mode that has outcomes has exactly one row in the report,
    the report has no other rows, and the tag of a row is a fixed
    classification of the row's figures: the row of the SYNC mode carries the tag of a healthy SYNC
    mode exactly when its success rate is 100, that of the ASYNC mode
    carries the tag of a healthy ASYNC mode exactly when its average
    latency is below 5000 ms, that of the CONCURRENT mode carries the tag
    of a healthy CONCURRENT mode exactly when its success rate is above
    80; in every other case the row is tagged "needs tuning". *)
Theorem health_tag_classification (results : list outcome) (m : string) :
  m ∈ methods ->
  total_count m results <> 0%nat ->
  exists r,
    r ∈ analyze_enhanced_results results
    /\ row_method r = m
    /\ (forall r', r' ∈ analyze_enhanced_results results ->
                   row_method r' = m -> r' = r)
    /\ ((m = "sync" /\ (row_success_rate r == 100)%Q
         /\ row_optimization r = "✅ State mgmt working")
        \/ (m = "async" /\ (row_avg_latency r < 5000)%Q
            /\ row_optimization r = "✅ Timeouts optimized")
        \/ (m = "concurrent" /\ (80 < row_success_rate r)%Q
            /\ row_optimization r = "✅ Parallel efficiency")
        \/ (~ (m = "sync" /\ (row_success_rate r == 100)%Q)
            /\ ~ (m = "async" /\ (row_avg_latency r < 5000)%Q)
            /\ ~ (m = "concurrent" /\ (80 < row_success_rate r)%Q)
            /\ row_optimization r = needs_tuning))
    /\ (healthy r = true
        <-> (m = "sync" /\ (row_success_rate r == 100)%Q)
            \/ (m = "async" /\ (row_avg_latency r < 5000)%Q)
            \/ (m = "concurrent" /\ (80 < row_success_rate r)%Q))
    /\ Forall (fun r' => row_method r' ∈ methods
                         /\ total_count (row_method r') results <> 0%nat)
         (analyze_enhanced_results results).
Proof.
  intros Hm Hcount.
  pose proof (method_row_spec results m) as Hspec.
  destruct (method_row results m) as [r|] eqn:Hrow; [|contradiction].
  destruct Hspec as (_ & Hmeth & _ & _ & Htag).
  exists r. split.
  { unfold analyze_enhanced_results. apply list_elem_of_omap.
    exists m. split; assumption. }
  split; [exact Hmeth|]. split.
  { intros r' Hr' Hm'. apply rows_from_methods in Hr' as [_ Hrow'].
    rewrite Hm', Hrow in Hrow'. congruence. }
  split; [rewrite Htag; apply tag_of_cases; exact Hm|].
  split; [unfold healthy; rewrite Htag; apply tag_of_healthy; exact Hm|].
  apply Forall_forall. intros r' Hr'.
  apply rows_from_methods in Hr' as [Hm' Hrow'].
  split; [exact Hm'|].
  pose proof (method_row_spec results (row_method r')) as Hspec'.
  rewrite Hrow' in Hspec'. apply Hspec'.
Qed.

(** C10 on one successful request per mode: the ASYNC row is tagged
    healthy. *)
Lemma health_tag_classification_witness :
  exists r,
    r ∈ analyze_enhanced_results
          [hello_outcome "sync"; hello_outcome "async";
           hello_outcome "concurrent"]
    /\ row_method r = "async"
    /\ row_optimization r = "✅ Timeouts optimized".
Proof.
  destruct (health_tag_classification
              [hello_outcome "sync"; hello_outcome "async";
               hello_outcome "concurrent"] "async")
    as (r & Hin & Hm & _ & Hcases & _ & _).
  - unfold methods. rewrite !elem_of_cons. tauto.
  - discriminate.
  - exists r. split; [exact Hin|]. split; [exact Hm|].
    destruct Hcases as [(? & _)|[(_ & _ & Ht)|[(? & _)|(_ & Hn & _)]]];
      try discriminate; [exact Ht|].
    exfalso. apply Hn. split; [reflexivity|].
    apply rows_from_methods in Hin as [_ Hrow]. rewrite Hm in Hrow.
    vm_compute in Hrow. injection Hrow as <-. reflexivity.
Defined.

Lemma rows_methods (results : list outcome) (ms : list string) :
  row_method <$> omap (method_row results) ms
  = filter (fun m => total_count m results <> 0%nat) ms.
Proof.
  induction ms as [|m ms IH]; [reflexivity|].
  cbn [omap list_omap]. rewrite filter_cons.
  pose proof (method_row_spec results m) as Hspec.
  destruct (method_row results m) as [r|].
  - destruct Hspec as (Hne & Hm & _).
    rewrite decide_True by exact Hne. cbn [fmap list_fmap].
    cbn [fmap] in IH. rewrite IH, Hm. reflexivity.
  - rewrite decide_False by (intros H; apply H; exact Hspec). exact IH.
Qed.

(** C8: the report has a row for exactly the modes that have at least one
    outcome, a mode without outcomes being left out; the success rate of a
    row is the number of successful outcomes of its mode over the number of
    its outcomes, times 100, and its average latency is the mean latency of
    the successful outcomes alone, 0 when the mode has none. *)
Theorem report_rates_and_averages (results : list outcome) :
  row_method <$> analyze_enhanced_results results
  = filter (fun m => total_count m results <> 0%nat) methods
  /\ Forall (fun r =>
               (row_success_rate r
                == spec_success_rate (row_method r) results)%Q
               /\ (row_avg_latency r
                   == spec_avg_latency (row_method r) results)%Q)
            (analyze_enhanced_results results).
Proof.
  split; [apply rows_methods|].
  apply Forall_forall. intros r Hr.
  apply rows_from_methods in Hr as [Hm Hrow].
  pose proof (method_row_spec results (row_method r)) as Hspec.
  rewrite Hrow in Hspec. destruct Hspec as (_ & _ & Hrate & Havg & _).
  split; assumption.
Qed.

(** The two scenarios of the report: a failed request of 9000 ms does not
    enter the average, and three SYNC successes of 100 ms are healthy. *)
Example failed_latency_is_not_averaged :
  let fast := {| prompt := "Say hello"; response_text := "Hello!...";
                 latency_ms := 100; success := true; method := "sync";
                 error_type := None |} in
  let slow := {| prompt := "What is 2+2?"; response_text := "Timeout after 15s";
                 latency_ms := 9000; success := false; method := "sync";
                 error_type := Some "timeout" |} in
  (fun r => (row_method r, Qred (row_success_rate r), Qred (row_avg_latency r)))
    <$> analyze_enhanced_results [fast; slow]
  = [("sync", 50%Q, 100%Q)].
Proof. reflexivity. Qed.

Example three_sync_successes_are_healthy :
  let ok p := {| prompt := p; response_text := "..."; latency_ms := 100;
                 success := true; method := "sync"; error_type := None |} in
  (fun r => (row_method r, Qred (row_success_rate r), Qred (row_avg_latency r),
             healthy r))
    <$> analyze_enhanced_results (ok <$> TEST_PROMPTS)
  = [("sync", 100%Q, 100%Q, true)].
Proof. reflexivity. Qed.

(** * Further properties of the timeout policy *)

Lemma clamp15_le (x y : Q) : (x <= y)%Q -> (clamp15 x <= clamp15 y)%Q.
Proof.
  intros Hxy. unfold clamp15.
  destruct (Qle_bool 15 x) eqn:Ex; destruct (Qle_bool 15 y) eqn:Ey.
  - exact Hxy.
  - apply Qle_bool_iff in Ex.
    assert (Hy : (15 <= y)%Q) by (eapply Qle_trans; eassumption).
    apply Qle_bool_iff in Hy. congruence.
  - apply Qle_bool_iff in Ey. exact Ey.
  - apply Qle_refl.
Qed.

Lemma len_cons_pos {A} (x : A) (l : list A) : (0 < Py.len (x :: l))%Q.
Proof.
  unfold Py.len, Qlt. cbn [Qnum Qden inject_Z length]. lia.
Qed.

Lemma sum_le_sum (h1 h2 : list Q) :
  Forall2 Qle h1 h2 -> (Py.sum h1 <= Py.sum h2)%Q.
Proof.
  induction 1 as [|x y h1 h2 Hxy Hh IH].
  - apply Qle_refl.
  - rewrite !sum_cons. apply Qplus_le_compat; assumption.
Qed.

(** The warm tier on a non-empty history, as a floor. *)
Lemma get_timeout_warm_tier (h : list Q) (x : Q) (state : string) :
  get_timeout (manager_with_history (x :: h)) false state
  = Qfloor (clamp15 (mean (x :: h) * (3 # 2))).
Proof.
  unfold get_timeout. rewrite andb_false_r.
  cbn [manager_with_history performance_history warm_timeout
       AdaptiveTimeoutManager_init].
  apply int_max_floor.
Qed.

Lemma record_all_manager (xs : list Q) :
  record_all xs = manager_with_history (drop (length xs - 5) xs).
Proof.
  pose proof (record_all_timeouts xs) as [Hc Hw].
  pose proof (history_is_last_five xs) as Hh.
  destruct (record_all xs) as [c w h]. cbn in *. subst. reflexivity.
Qed.

(** X1: whatever was recorded, no request gets a timeout below 15 seconds,
    whether its operations are exact or rounded, and however they are
    rounded. *)
Theorem timeout_at_least_warm_floor (fl : Q -> Q) (xs : list Q)
    (is_first : bool) (state : string) :
  15 <= get_timeout (record_all xs) is_first state
  /\ 15 <= get_timeout_rounded fl (record_all xs) is_first state.
Proof.
  rewrite record_all_manager. generalize (drop (length xs - 5) xs) as h.
  intros h. unfold get_timeout, get_timeout_rounded.
  cbn [manager_with_history performance_history warm_timeout cold_timeout
       AdaptiveTimeoutManager_init].
  destruct (String.eqb state "cold" && is_first); [lia|].
  destruct h; [lia|]. cbv zeta. split; apply Z.le_max_r.
Qed.

(** X2: the timeout adapts upward: when every latency of a history is
    replaced by one at least as large, the timeout of the next request
    does not decrease. *)
Theorem timeout_monotone (h1 h2 : list Q) (is_first : bool) (state : string) :
  Forall2 Qle h1 h2 ->
  get_timeout (manager_with_history h1) is_first state
  <= get_timeout (manager_with_history h2) is_first state.
Proof.
  intros Hle.
  destruct (String.eqb state "cold" && is_first) eqn:Hcold.
  - unfold get_timeout. rewrite Hcold. cbn. lia.
  - assert (Hf : forall h, get_timeout (manager_with_history h) is_first state
                     = get_timeout (manager_with_history h) false state).
    { intros h. unfold get_timeout. rewrite Hcold, andb_false_r. reflexivity. }
    rewrite !Hf. pose proof (sum_le_sum _ _ Hle) as Hsum.
    pose proof (Forall2_length _ _ _ Hle) as Hlen.
    destruct Hle as [|x y h1 h2 Hxy Hle]; [lia|].
    rewrite !get_timeout_warm_tier.
    apply Qfloor_resp_le, clamp15_le.
    apply Qmult_le_compat_r; [|discriminate].
    unfold mean, Py.len. rewrite Hlen.
    apply Qmult_le_compat_r; [exact Hsum|].
    apply Qinv_le_0_compat, Qlt_le_weak, (len_cons_pos y h2).
Qed.

(** X2 on the histories [8, 12] and [20, 30]. *)
Lemma timeout_monotone_witness :
  get_timeout (manager_with_history [8; 12]%Q) false "warm"
  <= get_timeout (manager_with_history [20; 30]%Q) false "warm".
Proof.
  apply (timeout_monotone [8; 12]%Q [20; 30]%Q false "warm").
  repeat constructor; unfold Qle; cbn; lia.
Defined.

(** * Further properties of the request functions *)

(** X3: what [enhanced_sync_request] does to the history depends on the
    reply alone, not on the outcome it returns: the elapsed seconds are
    recorded exactly when a response came back and passed
    [raise_for_status], and otherwise the manager is left as it was. *)
Theorem sync_request_records_iff_accepted (x : exchange reply)
    (prompt0 : string) (timeout : Z) (s : sync_store) :
  exists v,
    (v == clock x (S (ticks s)) - clock x (ticks s))%Q
    /\ timeout_manager (snd (enhanced_sync_request x prompt0 timeout s))
       = if accepted (answer x) then record_success (timeout_manager s) v
         else timeout_manager s.
Proof.
  exists (((clock x (S (ticks s)) - clock x (ticks s)) * 1000) / 1000)%Q.
  split; [field|].
  unfold enhanced_sync_request, accepted, requests_status_error,
    requests_raise_for_status, sync_perf_counter, json.
  run_monad. cbn [ticks timeout_manager].
  destruct (answer x) as [r|e]; cbn [requests_call]; run_monad.
  2:{ destruct (Py.exn_is_timeout e); reflexivity. }
  destruct ((400 <=? status_code r) && (status_code r <? 600)); run_monad.
  { reflexivity. }
  cbn [ticks timeout_manager on_timeout_manager].
  destruct (body r) as [v|e]; run_monad.
  2:{ destruct (Py.exn_is_timeout e); reflexivity. }
  destruct (Py.dict_get v "response" (Py.JStr "")) as [t|[e|]].
  - destruct (Py.slice_concat t 100 "...") as [text|[e|]];
      try reflexivity. destruct (Py.exn_is_timeout e); reflexivity.
  - destruct (Py.exn_is_timeout e); reflexivity.
  - reflexivity.
Qed.

Lemma excerpt_upto_run (n : nat) (v : Py.json) :
  match excerpt_upto n v with
  | Some text =>
      exists t, Py.dict_get v "response" (Py.JStr "") = Py.Ret t
             /\ Py.slice_concat t n "..." = Py.Ret text
  | None =>
      (exists e,
         Py.dict_get v "response" (Py.JStr "") = Py.Raise (Py.Exception e))
      \/ (exists t e,
            Py.dict_get v "response" (Py.JStr "") = Py.Ret t
            /\ Py.slice_concat t n "..." = Py.Raise (Py.Exception e))
  end.
Proof.
  destruct v as [| | | | | |kvs]; cbn;
    try (left; eexists; reflexivity).
  destruct (Py.assoc "response" kvs) as [[| | | |s| |]|]; cbn;
    try (right; eexists _, _; split; reflexivity);
    try (eexists; split; reflexivity).
  exists (Py.JStr ""). split; [reflexivity|]. destruct n; reflexivity.
Qed.

Lemma basic_request_outcome (x : exchange reply) (prompt0 : string)
    (n : nat) :
  exists o n',
    sync_request_basic x prompt0 n = (Py.Ret o, n')
    /\ prompt o = prompt0 /\ method o = "warmup" /\ error_type o = None
    /\ basic_outcome_of_reply (clock x) n (answer x) o.
Proof.
  unfold sync_request_basic, basic_outcome_of_reply, requests_status_error,
    requests_raise_for_status, perf_counter, json.
  run_monad.
  destruct (answer x) as [r|e]; cbn [requests_call]; run_monad.
  2:{ eexists _, _. repeat split; reflexivity. }
  destruct ((400 <=? status_code r) && (status_code r <? 600)); run_monad.
  { cbn. eexists _, _. repeat split; reflexivity. }
  destruct (body r) as [v|e]; run_monad.
  2:{ cbn. eexists _, _. repeat split; reflexivity. }
  pose proof (excerpt_upto_run 50 v) as Hex. unfold body_error.
  destruct (excerpt_upto 50 v) as [text|].
  - destruct Hex as (t & -> & ->). eexists _, _. repeat split; reflexivity.
  - destruct Hex as [[e ->]|(t & e & -> & ->)]; cbn;
      eexists _, _; (split; [reflexivity|]); cbn;
      repeat (split; [reflexivity|]); exists e; repeat split; reflexivity.
Qed.

Lemma excerpt_upto_no_error (n : nat) (v : Py.json) (text : string) :
  excerpt_upto n v = Some text -> body_error n v = None.
Proof.
  intros E. pose proof (excerpt_upto_run n v) as Hex. rewrite E in Hex.
  destruct Hex as (t & Ht & Hs). unfold body_error. rewrite Ht, Hs.
  reflexivity.
Qed.

(** X4: [sync_request_basic] never raises: whatever the HTTP call did it
    returns an outcome for its prompt, labelled "warmup" and without an
    error type.  The outcome is a failure exactly when the request met an
    exception: the HTTP call raised, a timeout included, or
    [raise_for_status] rejected the status, or the body could not be
    decoded or used.  A failure is reported as success false with the text
    "Error: " followed by the message of that exception. *)
Theorem warmup_request_reports_every_failure (x : exchange reply)
    (prompt0 : string) (n : nat) :
  exists o n',
    sync_request_basic x prompt0 n = (Py.Ret o, n')
    /\ prompt o = prompt0 /\ method o = "warmup" /\ error_type o = None
    /\ match basic_raised (answer x) with
       | Some e =>
           success o = false
           /\ response_text o = "Error: " +:+ Py.exn_str e
       | None => success o = true
       end.
Proof.
  destruct (basic_request_outcome x prompt0 n)
    as (o & n' & Hrun & Hp & Hm & He & Ho).
  exists o, n'. repeat (split; [assumption|]).
  unfold basic_outcome_of_reply in Ho. unfold basic_raised.
  destruct (answer x) as [r|e]; [|destruct Ho as (? & ? & _); by split].
  destruct (requests_status_error r);
    [destruct Ho as (? & ? & _); by split|].
  destruct (body r) as [v|e]; [|destruct Ho as (? & ? & _); by split].
  destruct (excerpt_upto 50 v) as [text|] eqn:E.
  - rewrite (excerpt_upto_no_error _ _ _ E). apply Ho.
  - destruct Ho as (e & -> & ? & ? & _). by split.
Qed.

Lemma substring_length_le (n : nat) : forall s,
  (String.length (String.substring 0 n s) <= n)%nat.
Proof.
  induction n as [|n IH]; intros [|c s]; cbn; try lia.
  specialize (IH s). lia.
Qed.

Lemma append_length (a b : string) :
  String.length (a +:+ b) = (String.length a + String.length b)%nat.
Proof.
  induction a as [|c a IH]; [reflexivity|].
  change (String c a +:+ b) with (String c (a +:+ b)).
  cbn [String.length]. rewrite IH. reflexivity.
Qed.

Lemma excerpt_upto_length (n : nat) (v : Py.json) (text : string) :
  excerpt_upto n v = Some text -> (String.length text <= n + 3)%nat.
Proof.
  destruct v as [| | | | | |kvs]; cbn; try discriminate.
  destruct (Py.assoc "response" kvs) as [[| | | |s| |]|]; try discriminate.
  - intros [= <-]. rewrite append_length.
    pose proof (substring_length_le n s). cbn. lia.
  - intros [= <-]. cbn. lia.
Qed.

Lemma outcome_of_reply_bounded http_error c t got o :
  outcome_of_reply http_error c t got o ->
  success o = false \/ (String.length (response_text o) <= 103)%nat.
Proof.
  unfold outcome_of_reply, failed_with, succeeded_with.
  destruct got as [r|e]; [|intros (? & _); by left].
  destruct (http_error r); [intros (? & _); by left|].
  destruct (body r) as [v|e]; [|intros (? & _); by left].
  destruct (excerpt v) as [text|] eqn:E.
  - intros (_ & _ & -> & _). right.
    change (excerpt v) with (excerpt_upto 100 v) in E.
    apply excerpt_upto_length in E. lia.
  - intros (e & _ & ? & _). by left.
Qed.

(** X5: the response text of a successful outcome is a bounded excerpt:
    at most 103 characters from [enhanced_sync_request] and
    [enhanced_async_request] (100 of the generated text and the ellipsis),
    at most 53 from [sync_request_basic]. *)
Theorem successful_excerpt_is_bounded (x : exchange reply) (c : nat -> Q)
    (got : reply) (prompt0 : string) (timeout : Z) (s : sync_store)
    (n : nat) :
  (exists o s',
     enhanced_sync_request x prompt0 timeout s = (Py.Ret o, s')
     /\ (success o = false
         \/ (String.length (response_text o) <= 103)%nat))
  /\ (exists o n',
        enhanced_async_request {| clock := c; answer := Settled got |}
          prompt0 timeout n = (Py.Ret o, n')
        /\ (success o = false
            \/ (String.length (response_text o) <= 103)%nat))
  /\ (exists o n',
        sync_request_basic x prompt0 n = (Py.Ret o, n')
        /\ (success o = false
            \/ (String.length (response_text o) <= 53)%nat)).
Proof.
  split; [|split].
  - destruct (sync_request_outcome x prompt0 timeout s)
      as (o & s' & Hrun & _ & _ & Ho).
    exists o, s'. split; [exact Hrun|].
    eapply outcome_of_reply_bounded; exact Ho.
  - destruct (async_request_outcome c got prompt0 timeout n)
      as (o & n' & Hrun & _ & _ & Ho).
    exists o, n'. split; [exact Hrun|].
    eapply outcome_of_reply_bounded; exact Ho.
  - destruct (basic_request_outcome x prompt0 n)
      as (o & n' & Hrun & _ & _ & _ & Ho).
    exists o, n'. split; [exact Hrun|].
    unfold basic_outcome_of_reply in Ho.
    destruct (answer x) as [r|e]; [|destruct Ho as (? & _); by left].
    destruct (requests_status_error r); [destruct Ho as (? & _); by left|].
    destruct (body r) as [v|e]; [|destruct Ho as (? & _); by left].
    destruct (excerpt_upto 50 v) as [text|] eqn:E.
    + destruct Ho as (_ & -> & _). right.
      apply excerpt_upto_length in E. lia.
    + destruct Ho as (e & _ & ? & _). by left.
Qed.

(** X6: an accepted response whose body is a JSON object without a
    ["response"] key is a success: the outcome has success true, the
    bare ellipsis as text and no error type. *)
Theorem missing_response_key_is_success (x : exchange reply) (r : response)
    (kvs : list (string * Py.json)) (prompt0 : string) (timeout : Z)
    (s : sync_store) :
  answer x = Responded r ->
  requests_status_error r = None ->
  body r = Decoded (Py.JDict kvs) ->
  Py.assoc "response" kvs = None ->
  exists o s',
    enhanced_sync_request x prompt0 timeout s = (Py.Ret o, s')
    /\ success o = true /\ response_text o = "..."
    /\ error_type o = None.
Proof.
  intros Hx Hst Hb Hk.
  destruct (sync_request_outcome x prompt0 timeout s)
    as (o & s' & Hrun & _ & _ & Ho).
  exists o, s'. split; [exact Hrun|].
  unfold outcome_of_reply in Ho. rewrite Hx, Hst, Hb in Ho.
  cbn [excerpt] in Ho. rewrite Hk in Ho.
  destruct Ho as (Hs & He & Ht & _). auto.
Qed.

(** X6 on a 200 response whose body is [{"done": true}]. *)
Lemma missing_response_key_is_success_witness :
  exists o s',
    enhanced_sync_request
      (sync_exchange
         (Responded {| status_code := 200; reason := "OK";
                       body := Decoded (Py.JDict [("done", Py.JBool true)]) |}))
      "Say hello" 15 fresh_sync_store = (Py.Ret o, s')
    /\ success o = true /\ response_text o = "..."
    /\ error_type o = None.
Proof.
  apply (missing_response_key_is_success
           (sync_exchange
              (Responded {| status_code := 200; reason := "OK";
                            body := Decoded
                                      (Py.JDict [("done", Py.JBool true)]) |}))
           {| status_code := 200; reason := "OK";
              body := Decoded (Py.JDict [("done", Py.JBool true)]) |}
           [("done", Py.JBool true)] "Say hello" 15 fresh_sync_store);
    reflexivity.
Defined.

Lemma elapsed_nonneg (a b : Q) : (a <= b)%Q -> (0 <= (b - a) * 1000)%Q.
Proof.
  intros H. apply Qmult_le_0_compat; [|discriminate].
  unfold Qminus. rewrite <- (Qplus_opp_r a).
  apply Qplus_le_compat; [exact H|apply Qle_refl].
Qed.

Lemma outcome_of_reply_nonneg http_error c t got o :
  (c t <= c (S t))%Q -> (c (S t) <= c (S (S t)))%Q ->
  outcome_of_reply http_error c t got o -> (0 <= latency_ms o)%Q.
Proof.
  intros H1 H2.
  assert (H3 : (c t <= c (S (S t)))%Q) by (eapply Qle_trans; eassumption).
  unfold outcome_of_reply, failed_with, succeeded_with.
  destruct got as [r|e].
  - destruct (http_error r).
    + intros (_ & _ & ->). by apply elapsed_nonneg.
    + destruct (body r) as [v|e].
      * destruct (excerpt v).
        -- intros (_ & _ & _ & ->). by apply elapsed_nonneg.
        -- intros (e & _ & _ & _ & ->). by apply elapsed_nonneg.
      * intros (_ & _ & ->). by apply elapsed_nonneg.
  - intros (_ & _ & ->). by apply elapsed_nonneg.
Qed.

(** X7: when the clock does not run backwards over the readings a request
    makes, the latency of its outcome is not negative, in each of the
    three request functions and whether the request succeeds or fails. *)
Theorem latency_is_not_negative (x : exchange reply) (prompt0 : string)
    (timeout : Z) (s : sync_store) :
  (clock x (ticks s) <= clock x (S (ticks s)))%Q ->
  (clock x (S (ticks s)) <= clock x (S (S (ticks s))))%Q ->
  (exists o s',
     enhanced_sync_request x prompt0 timeout s = (Py.Ret o, s')
     /\ (0 <= latency_ms o)%Q)
  /\ (exists o n',
        enhanced_async_request
          {| clock := clock x; answer := Settled (answer x) |}
          prompt0 timeout (ticks s) = (Py.Ret o, n')
        /\ (0 <= latency_ms o)%Q)
  /\ (exists o n',
        sync_request_basic x prompt0 (ticks s) = (Py.Ret o, n')
        /\ (0 <= latency_ms o)%Q).
Proof.
  intros H1 H2.
  assert (H3 : (clock x (ticks s) <= clock x (S (S (ticks s))))%Q)
    by (eapply Qle_trans; eassumption).
  split; [|split].
  - destruct (sync_request_outcome x prompt0 timeout s)
      as (o & s' & Hrun & _ & _ & Ho).
    exists o, s'. split; [exact Hrun|].
    exact (outcome_of_reply_nonneg _ _ _ _ _ H1 H2 Ho).
  - destruct (async_request_outcome (clock x) (answer x) prompt0 timeout
                (ticks s)) as (o & n' & Hrun & _ & _ & Ho).
    exists o, n'. split; [exact Hrun|].
    exact (outcome_of_reply_nonneg _ _ _ _ _ H1 H2 Ho).
  - destruct (basic_request_outcome x prompt0 (ticks s))
      as (o & n' & Hrun & _ & _ & _ & Ho).
    exists o, n'. split; [exact Hrun|].
    unfold basic_outcome_of_reply in Ho.
    destruct (answer x) as [r|e].
    + destruct (requests_status_error r).
      * destruct Ho as (_ & _ & ->). by apply elapsed_nonneg.
      * destruct (body r) as [v|e].
        -- destruct (excerpt_upto 50 v).
           ++ destruct Ho as (_ & _ & ->). by apply elapsed_nonneg.
           ++ destruct Ho as (e & _ & _ & _ & ->). by apply elapsed_nonneg.
        -- destruct Ho as (_ & _ & ->). by apply elapsed_nonneg.
    + destruct Ho as (_ & _ & ->). by apply elapsed_nonneg.
Qed.

(** X7 on a request that times out under the half-second clock. *)
Lemma latency_is_not_negative_witness :
  (exists o s',
     enhanced_sync_request (sync_exchange (Threw read_timeout))
       "Say hello" 15 fresh_sync_store = (Py.Ret o, s')
     /\ (0 <= latency_ms o)%Q)
  /\ (exists o n',
        enhanced_async_request
          {| clock := clock (sync_exchange (Threw read_timeout));
             answer := Settled (answer (sync_exchange (Threw read_timeout))) |}
          "Say hello" 15 (ticks fresh_sync_store) = (Py.Ret o, n')
        /\ (0 <= latency_ms o)%Q)
  /\ (exists o n',
        sync_request_basic (sync_exchange (Threw read_timeout))
          "Say hello" (ticks fresh_sync_store) = (Py.Ret o, n')
        /\ (0 <= latency_ms o)%Q).
Proof.
  apply (latency_is_not_negative (sync_exchange (Threw read_timeout))
           "Say hello" 15 fresh_sync_store);
    unfold Qle; cbn; lia.
Defined.

(** * Properties of the warmup and of the connection test *)

(** X8: [warmup_model] never raises and returns whether its "Hi" request
    succeeded.  A successful warmup marks the model warm; a failed one
    leaves [is_warm] as it was; and the time the warmup took is stored in
    [warmup_time] in both cases. *)
Theorem warmup_model_effect (x : exchange reply) (s : warmup_store) :
  exists o n' s',
    sync_request_basic x "Hi" (S (warmup_ticks s)) = (Py.Ret o, n')
    /\ warmup_model x s = (Py.Ret (success o), s')
    /\ is_warm (warmup_self s') = success o || is_warm (warmup_self s)
    /\ warmup_time (warmup_self s')
       = Some (clock x n' - clock x (warmup_ticks s))%Q.
Proof.
  destruct (basic_request_outcome x "Hi" (S (warmup_ticks s)))
    as (o & n' & Hrun & _).
  exists o, n'. unfold warmup_model, on_ticks, perf_counter. run_monad.
  cbn [warmup_ticks warmup_self]. rewrite Hrun.
  cbn [warmup_ticks warmup_self on_self].
  destruct (success o); eexists; (split; [reflexivity|]);
    (split; [reflexivity|]); split; reflexivity.
Qed.

(** X9: [test_connection] never raises and changes nothing: it returns
    True exactly when the status is 200 and the body is a JSON object
    whose ["models"] entry, when present, has a length; a refused
    connection, another status, an undecodable body, a body that is not an
    object and a ["models"] entry that is null or a number all give
    False. *)
Theorem test_connection_never_raises {S} (got : reply) (s : S) :
  test_connection got s = (Py.Ret (connection_ok got), s).
Proof.
  unfold test_connection, connection_ok, json. run_monad.
  destruct got as [r|e]; cbn [requests_call]; run_monad; [|reflexivity].
  destruct (status_code r =? 200); [|reflexivity]. cbn [andb].
  destruct (body r) as [v|e]; run_monad; [|reflexivity].
  destruct v as [| | | | | |kvs]; cbn [Py.dict_get]; try reflexivity.
  destruct (Py.assoc "models" kvs) as [[| | | | | |]|]; reflexivity.
Qed.

(** * Further properties of the state probe *)

(** X10: the probe touches [is_warm] only when it can tell: when it
    answers "warm" or "cold" the flag is set accordingly, and when it
    answers "unknown" the flag keeps the value it had; [warmup_time] is
    never changed. *)
Theorem probe_updates_is_warm (got : reply) (self : ModelStateManager) :
  exists state self',
    check_model_state got self = (Py.Ret state, self')
    /\ warmup_time self' = warmup_time self
    /\ is_warm self'
       = if String.eqb state "unknown" then is_warm self
         else String.eqb state "warm".
Proof.
  unfold check_model_state. run_monad.
  destruct got as [r|e]; cbn [requests_call].
  2:{ run_monad. eexists _, _. repeat split; reflexivity. }
  run_monad. destruct (status_code r =? 200).
  2:{ eexists _, _. repeat split; reflexivity. }
  unfold json. destruct (body r) as [v|e]; run_monad.
  2:{ eexists _, _. repeat split; reflexivity. }
  destruct (Py.dict_get v "models" (Py.JList [])) as [lm|[e|]] eqn:Hget.
  2:{ eexists _, _. repeat split; reflexivity. }
  2:{ destruct v; discriminate. }
  destruct (Py.iterate lm) as [items|[e|]] eqn:Hit.
  2:{ eexists _, _. repeat split; reflexivity. }
  2:{ destruct lm; discriminate. }
  destruct (any_named MODEL items) as [[|]|rr] eqn:Han.
  - eexists _, _. repeat split; reflexivity.
  - eexists _, _. repeat split; reflexivity.
  - destruct (any_named_exception _ _ _ Han) as [e ->].
    eexists _, _. repeat split; reflexivity.
Qed.

Lemma probe_listing (models : list Py.json) (self : ModelStateManager) :
  fst (check_model_state (Responded (ps_listing models)) self)
  = match any_named MODEL models with
    | Py.Ret true => Py.Ret "warm"
    | Py.Ret false => Py.Ret "cold"
    | Py.Raise _ => Py.Ret "unknown"
    end.
Proof.
  unfold check_model_state, ps_listing, json. run_monad. cbn.
  destruct (any_named MODEL models) as [[|]|rr] eqn:Han; try reflexivity.
  destruct (any_named_exception _ _ _ Han) as [e ->]. reflexivity.
Qed.

(** X11: the probe reads the list of loaded models only as far as it has
    to.  After entries that are objects with other names, an entry named
    MODEL makes it answer "warm" whatever follows, malformed entries
    included; an entry that is not an object, met before any match, makes
    it answer "unknown" even when the model is listed after it. *)
Theorem probe_stops_at_first_match
    (before : list (list (string * Py.json)))
    (hit : list (string * Py.json)) (bad : Py.json) (rest : list Py.json)
    (self : ModelStateManager) :
  MODEL ∉ omap entry_name before ->
  entry_name hit = Some MODEL ->
  as_dict bad = None ->
  fst (check_model_state
         (Responded (ps_listing ((Py.JDict <$> before)
                                 ++ Py.JDict hit :: rest))) self)
  = Py.Ret "warm"
  /\ fst (check_model_state
            (Responded (ps_listing ((Py.JDict <$> before) ++ bad :: rest)))
            self)
     = Py.Ret "unknown".
Proof.
  intros Hnot Hhit Hbad. rewrite !probe_listing, !any_named_app by exact Hnot.
  split.
  - cbn [any_named Py.dict_get]. unfold entry_name in Hhit.
    destruct (Py.assoc "name" hit) as [[| | | |s| |]|]; try discriminate.
    injection Hhit as ->. cbn [Py.eq_str]. rewrite String.eqb_refl.
    reflexivity.
  - destruct bad; try discriminate; reflexivity.
Qed.

(** X11 on a listing with another model first, then MODEL or a stray
    string, then a null entry. *)
Lemma probe_stops_at_first_match_witness :
  fst (check_model_state
         (Responded (ps_listing
            ((Py.JDict <$> [[("name", Py.JStr "llama3:8b")]])
             ++ Py.JDict [("name", Py.JStr MODEL)] :: [Py.JNull])))
         ModelStateManager_init)
  = Py.Ret "warm"
  /\ fst (check_model_state
            (Responded (ps_listing
               ((Py.JDict <$> [[("name", Py.JStr "llama3:8b")]])
                ++ Py.JStr "junk" :: [Py.JDict [("name", Py.JStr MODEL)]])))
            ModelStateManager_init)
     = Py.Ret "unknown".
Proof.
  split.
  - apply (probe_stops_at_first_match
             [[("name", Py.JStr "llama3:8b")]] [("name", Py.JStr MODEL)]
             (Py.JStr "junk") [Py.JNull] ModelStateManager_init);
      try reflexivity.
    cbn. intros H. apply list_elem_of_singleton in H. discriminate H.
  - apply (probe_stops_at_first_match
             [[("name", Py.JStr "llama3:8b")]] [("name", Py.JStr MODEL)]
             (Py.JStr "junk") [Py.JDict [("name", Py.JStr MODEL)]]
             ModelStateManager_init);
      try reflexivity.
    cbn. intros H. apply list_elem_of_singleton in H. discriminate H.
Defined.

(** * The loops of [main] *)

Lemma sync_request_manager (x : exchange reply) (prompt0 : string)
    (timeout : Z) (tm : AdaptiveTimeoutManager) :
  timeout_manager
    (snd (enhanced_sync_request x prompt0 timeout
            {| ticks := 0; timeout_manager := tm |}))
  = manager_after tm (prompt0, x).
Proof.
  unfold manager_after, enhanced_sync_request, accepted, requests_status_error,
    requests_raise_for_status, sync_perf_counter, json.
  run_monad. cbn [ticks timeout_manager snd].
  destruct (answer x) as [r|e]; cbn [requests_call]; run_monad.
  2:{ destruct (Py.exn_is_timeout e); reflexivity. }
  destruct ((400 <=? status_code r) && (status_code r <? 600)); run_monad.
  { reflexivity. }
  cbn [ticks timeout_manager on_timeout_manager].
  destruct (body r) as [v|e]; run_monad.
  2:{ destruct (Py.exn_is_timeout e); reflexivity. }
  destruct (Py.dict_get v "response" (Py.JStr "")) as [t|[e|]].
  - destruct (Py.slice_concat t 100 "...") as [text|[e|]];
      try reflexivity. destruct (Py.exn_is_timeout e); reflexivity.
  - destruct (Py.exn_is_timeout e); reflexivity.
  - reflexivity.
Qed.

Lemma sync_requests_run (model_state : string)
    (work : list (string * exchange reply)) :
  forall (i : nat) (b : main_store),
  exists new,
    sync_requests model_state i work b
    = (Py.Ret tt,
       {| main_timeout_manager :=
            foldl manager_after (main_timeout_manager b) work;
          main_results := main_results b ++ new |})
    /\ prompt <$> new = fst <$> work
    /\ Forall (fun o => method o = "sync") new.
Proof.
  induction work as [|[p x] work IH]; intros i b.
  - exists []. cbn. rewrite app_nil_r. destruct b. by repeat split.
  - cbn [sync_requests]. run_monad. unfold call_with_manager.
    pose proof (sync_request_manager x p
                  (get_timeout (main_timeout_manager b) (i =? 0)%nat
                     model_state)
                  (main_timeout_manager b)) as Hm.
    destruct (sync_request_outcome x p
                (get_timeout (main_timeout_manager b) (i =? 0)%nat
                   model_state)
                {| ticks := 0; timeout_manager := main_timeout_manager b |})
      as (o & s' & Hrun & Hp & Hmeth & _).
    rewrite Hrun in Hm |- *. cbn [snd] in Hm.
    destruct (IH (S i) (results_append o
                 {| main_timeout_manager := timeout_manager s';
                    main_results := main_results b |}))
      as (new & Hloop & Hps & Hms).
    exists (o :: new). rewrite Hloop.
    cbn [results_append main_timeout_manager main_results foldl].
    rewrite Hm, <- app_assoc. split; [reflexivity|].
    split; [cbn; by rewrite Hp, Hps|by constructor].
Qed.

(** X12: the SYNC loop never raises and appends exactly one outcome per
    prompt, in prompt order and labelled "sync", whatever the requests
    did; the manager it leaves has recorded, in order, the elapsed seconds
    of the accepted replies and nothing else. *)
Theorem sync_loop_one_outcome_per_prompt (model_state : string)
    (work : list (string * exchange reply)) (i : nat) (b : main_store) :
  exists new,
    sync_requests model_state i work b
    = (Py.Ret tt,
       {| main_timeout_manager :=
            foldl manager_after (main_timeout_manager b) work;
          main_results := main_results b ++ new |})
    /\ prompt <$> new = fst <$> work
    /\ Forall (fun o => method o = "sync") new.
Proof. apply sync_requests_run. Qed.

Lemma async_requests_run (work : list (string * exchange areply)) :
  forall (b : main_store),
  exists new,
    async_requests work b
    = (if forallb (fun w => negb (is_cancelled w)) work
       then Py.Ret tt else Py.Raise Py.CancelledError,
       {| main_timeout_manager := main_timeout_manager b;
          main_results := main_results b ++ new |})
    /\ prompt <$> new = fst <$> before_cancel work
    /\ Forall (fun o => method o = "async") new.
Proof.
  induction work as [|[p [c [got|]]] work IH]; intros b.
  - exists []. cbn. rewrite app_nil_r. destruct b. by repeat split.
  - cbn [async_requests]. run_monad. unfold await.
    destruct (async_request_outcome c got p
                (get_timeout (main_timeout_manager b) false "warm") 0)
      as (o & n' & Hrun & Hp & Hmeth & _).
    rewrite Hrun. cbn [fst].
    destruct (IH (results_append o b)) as (new & Hloop & Hps & Hms).
    exists (o :: new). rewrite Hloop.
    cbn [results_append main_timeout_manager main_results forallb
         is_cancelled snd answer negb andb before_cancel].
    rewrite <- app_assoc. split; [reflexivity|].
    split; [cbn; by rewrite Hp, Hps|by constructor].
  - exists []. cbn [async_requests]. run_monad. unfold await.
    rewrite async_request_cancelled. cbn. rewrite app_nil_r.
    destruct b. by repeat split.
Qed.

(** X13: the ASYNC loop appends one outcome, labelled "async", for each
    prompt in prompt order as long as no request is cancelled.  The first
    cancelled request ends the loop: [CancelledError] leaves the loop,
    the outcomes appended so far stay in the results, and the prompts
    after it are not sent. *)
Theorem async_loop_stops_at_cancellation
    (work : list (string * exchange areply)) (b : main_store) :
  exists new,
    async_requests work b
    = (if forallb (fun w => negb (is_cancelled w)) work
       then Py.Ret tt else Py.Raise Py.CancelledError,
       {| main_timeout_manager := main_timeout_manager b;
          main_results := main_results b ++ new |})
    /\ prompt <$> new = fst <$> before_cancel work
    /\ Forall (fun o => method o = "async") new.
Proof. apply async_requests_run. Qed.

Lemma async_requests_fixed (work : list (string * exchange areply)) :
  forall b,
    async_requests work b
    = async_requests_at (get_timeout (main_timeout_manager b) false "warm")
        work b.
Proof.
  induction work as [|[p x] work IH]; intros b; [reflexivity|].
  cbn [async_requests async_requests_at]. run_monad. unfold await.
  destruct (enhanced_async_request x p _ 0%nat) as [[o|r] n'];
    cbn [fst]; [|reflexivity].
  rewrite IH. reflexivity.
Qed.

(** X14: the ASYNC loop asks the manager for a timeout before every
    request and gets the same answer every time: the loop behaves as if
    the timeout had been computed once before it, and the timeout that
    the CONCURRENT batch computes after it is that same value. *)
Theorem async_loop_uses_one_timeout
    (work : list (string * exchange areply)) (b : main_store) :
  let timeout := get_timeout (main_timeout_manager b) false "warm" in
  async_requests work b = async_requests_at timeout work b
  /\ get_timeout (main_timeout_manager (snd (async_requests work b)))
       false "warm" = timeout.
Proof.
  split; [apply async_requests_fixed|].
  rewrite async_requests_manager. reflexivity.
Qed.

Lemma before_cancel_none (work : list (string * exchange areply)) :
  forallb (fun w => negb (is_cancelled w)) work = true ->
  before_cancel work = work.
Proof.
  induction work as [|w work IH]; [reflexivity|].
  cbn [forallb before_cancel]. destruct (is_cancelled w); [discriminate|].
  cbn [negb andb]. intros H. rewrite IH by exact H. reflexivity.
Qed.

Lemma concurrent_requests_run (work : list (string * exchange areply))
    (order : list nat) (b : main_store) :
  order ≡ₚ seq 0 (length work) ->
  concurrent_requests work order b
  = Some {| main_timeout_manager := main_timeout_manager b;
            main_results :=
              main_results b
              ++ omap (concurrent_entry
                         (get_timeout (main_timeout_manager b) false "warm"))
                   work |}.
Proof.
  intros Hperm. unfold concurrent_requests. cbv zeta.
  rewrite gather_all_complete by (rewrite length_map; exact Hperm).
  cbn [mbind option_bind]. rewrite append_dicts_omap, concurrent_entry_omap.
  reflexivity.
Qed.

Lemma fmap_constant {A B} (f : A -> B) (c : B) (l : list A) :
  Forall (fun a => f a = c) l -> f <$> l = replicate (length l) c.
Proof.
  induction 1 as [|a l Ha _ IH]; [reflexivity|].
  cbn. rewrite Ha. f_equal. exact IH.
Qed.

(** X15: a run in which no ASYNC request is cancelled and every task of
    the batch completes ends with a report, and its result sequence is
    laid out by mode: the SYNC outcomes of all the prompts, then the ASYNC
    outcomes of all the prompts, then the CONCURRENT outcomes of the
    prompts whose coroutine returned, each group in prompt order; the
    report is computed from exactly that sequence. *)
Theorem run_results_layout (model_state : string)
    (sync_work : list (string * exchange reply))
    (async_work concurrent_work : list (string * exchange areply))
    (order : list nat) :
  forallb (fun w => negb (is_cancelled w)) async_work = true ->
  order ≡ₚ seq 0 (length concurrent_work) ->
  let answered := filter (fun w => is_cancelled w = false) concurrent_work in
  exists b,
    benchmark model_state sync_work async_work concurrent_work order
    = Some (Py.Ret (analyze_enhanced_results (main_results b)), b)
    /\ prompt <$> main_results b
       = (fst <$> sync_work) ++ (fst <$> async_work) ++ (fst <$> answered)
    /\ method <$> main_results b
       = replicate (length sync_work) "sync"
         ++ replicate (length async_work) "async"
         ++ replicate (length answered) "concurrent".
Proof.
  intros Hasync Hperm answered. unfold benchmark. cbv zeta. run_monad.
  destruct (sync_requests_run model_state sync_work 0
              {| main_timeout_manager := AdaptiveTimeoutManager_init;
                 main_results := [] |})
    as (new1 & -> & Hp1 & Hm1).
  match goal with |- context [async_requests async_work ?b] =>
    destruct (async_requests_run async_work b) as (new2 & -> & Hp2 & Hm2)
  end.
  rewrite Hasync. rewrite before_cancel_none in Hp2 by exact Hasync.
  rewrite concurrent_requests_run by exact Hperm.
  cbn [mbind option_bind main_timeout_manager main_results app].
  match goal with |- context [omap (concurrent_entry ?t) concurrent_work] =>
    destruct (concurrent_entries_prompts t concurrent_work) as [Hp3 Hm3];
    set (new3 := omap (concurrent_entry t) concurrent_work) in *
  end.
  lazymatch goal with
  | |- exists b, Some (_, ?b0) = _ /\ _ => exists b0
  end.
  split; [reflexivity|]. cbn [main_results].
  rewrite !fmap_app, Hp1, Hp2, Hp3. rewrite <- !app_assoc.
  split; [reflexivity|].
  rewrite (fmap_constant _ _ _ Hm1), (fmap_constant _ _ _ Hm2),
    (fmap_constant _ _ _ Hm3).
  apply (f_equal length) in Hp1, Hp2, Hp3.
  rewrite !length_fmap in Hp1. rewrite !length_fmap in Hp2.
  rewrite !length_fmap in Hp3. fold answered in Hp3.
  rewrite Hp1, Hp2, Hp3. reflexivity.
Qed.

(** X15 on a run with one SYNC prompt, one ASYNC prompt and a batch of
    two whose second coroutine is cancelled. *)
Lemma run_results_layout_witness :
  let sync_work := [("Say hello", sync_exchange (Threw connection_refused))] in
  let concurrent_work :=
    hello_work ++ [("What is 2+2?", async_exchange Cancelled)] in
  let answered := filter (fun w => is_cancelled w = false) concurrent_work in
  exists b,
    benchmark "cold" sync_work hello_work concurrent_work [1; 0]%nat
    = Some (Py.Ret (analyze_enhanced_results (main_results b)), b)
    /\ prompt <$> main_results b
       = (fst <$> sync_work) ++ (fst <$> hello_work) ++ (fst <$> answered)
    /\ method <$> main_results b
       = replicate (length sync_work) "sync"
         ++ replicate (length hello_work) "async"
         ++ replicate (length answered) "concurrent".
Proof.
  intros sync_work concurrent_work.
  apply (run_results_layout "cold" sync_work hello_work concurrent_work
           [1; 0]%nat).
  - reflexivity.
  - apply perm_swap.
Defined.

(** * Further properties of the report *)

Lemma successful_le_total (m : string) (results : list outcome) :
  (successful_count m results <= total_count m results)%nat.
Proof.
  induction results as [|r rest IH]; [reflexivity|].
  cbn [successful_count total_count].
  destruct (String.eqb (method r) m); destruct (success r); cbn; lia.
Qed.

Lemma spec_success_rate_range (m : string) (results : list outcome) :
  total_count m results <> 0%nat ->
  (0 <= spec_success_rate m results)%Q
  /\ (spec_success_rate m results <= 100)%Q.
Proof.
  intros Hne. pose proof (successful_le_total m results) as Hle.
  unfold spec_success_rate.
  set (ok := successful_count m results) in *.
  set (n := total_count m results) in *.
  assert (Hn : (0 < inject_Z (Z.of_nat n))%Q).
  { unfold Qlt. cbn. lia. }
  assert (Hok : (0 <= inject_Z (Z.of_nat ok))%Q).
  { unfold Qle. cbn. lia. }
  assert (Hokn : (inject_Z (Z.of_nat ok) <= inject_Z (Z.of_nat n))%Q).
  { unfold Qle. cbn. lia. }
  split.
  - apply Qmult_le_0_compat; [|discriminate].
    apply Qle_shift_div_l; [exact Hn|]. rewrite Qmult_0_l. exact Hok.
  - assert (H1 : (inject_Z (Z.of_nat ok) / inject_Z (Z.of_nat n) <= 1)%Q).
    { apply Qle_shift_div_r; [exact Hn|]. rewrite Qmult_1_l. exact Hokn. }
    apply (Qle_trans _ (1 * 100)%Q); [|discriminate].
    apply Qmult_le_compat_r; [exact H1|discriminate].
Qed.

(** X16: every success rate of the report is a percentage, between 0 and
    100. *)
Theorem success_rate_is_a_percentage (results : list outcome) :
  Forall (fun r => (0 <= row_success_rate r)%Q
                   /\ (row_success_rate r <= 100)%Q)
         (analyze_enhanced_results results).
Proof.
  apply Forall_forall. intros r Hr.
  apply rows_from_methods in Hr as [Hm Hrow].
  pose proof (method_row_spec results (row_method r)) as Hspec.
  rewrite Hrow in Hspec. destruct Hspec as (Hne & _ & Hrate & _).
  rewrite Hrate. apply spec_success_rate_range. exact Hne.
Qed.

Lemma Qeq_bool_eq (x y z : Q) : (x == y)%Q -> Qeq_bool x z = Qeq_bool y z.
Proof.
  intros H. destruct (Qeq_bool x z) eqn:E1; destruct (Qeq_bool y z) eqn:E2;
    try reflexivity.
  - apply Qeq_bool_iff in E1. rewrite H in E1. apply Qeq_bool_iff in E1.
    congruence.
  - apply Qeq_bool_iff in E2. rewrite <- H in E2. apply Qeq_bool_iff in E2.
    congruence.
Qed.

Lemma Qltb_eq (x y x' y' : Q) :
  (x == x')%Q -> (y == y')%Q -> Py.Qltb x y = Py.Qltb x' y'.
Proof.
  intros Hx Hy.
  destruct (Py.Qltb x y) eqn:E1; destruct (Py.Qltb x' y') eqn:E2;
    try reflexivity.
  - apply Qltb_lt in E1. rewrite Hx, Hy in E1. apply Qltb_lt in E1.
    congruence.
  - apply Qltb_lt in E2. rewrite <- Hx, <- Hy in E2. apply Qltb_lt in E2.
    congruence.
Qed.

Lemma tag_of_eq (m : string) (rate rate' avg avg' : Q) :
  (rate == rate')%Q -> (avg == avg')%Q ->
  tag_of m rate avg = tag_of m rate' avg'.
Proof.
  intros Hr Ha. unfold tag_of.
  rewrite (Qeq_bool_eq rate rate' 100 Hr).
  rewrite (Qltb_eq avg 5000 avg' 5000 Ha (Qeq_refl _)).
  rewrite (Qltb_eq 80 rate 80 rate' (Qeq_refl _) Hr).
  reflexivity.
Qed.

(** X17: a mode all of whose requests failed is still reported, with a
    success rate of 0 and an average latency of 0.  Its tag depends on the
    mode: the SYNC and the CONCURRENT row are tagged "needs tuning", but
    the ASYNC row is tagged healthy, its average of 0 being below 5000. *)
Theorem mode_without_success (results : list outcome) (m : string) :
  m ∈ methods ->
  total_count m results <> 0%nat ->
  successful_count m results = 0%nat ->
  exists r,
    r ∈ analyze_enhanced_results results
    /\ row_method r = m
    /\ (row_success_rate r == 0)%Q
    /\ (row_avg_latency r == 0)%Q
    /\ healthy r = bool_decide (m = "async").
Proof.
  intros Hm Hne Hok.
  pose proof (method_row_spec results m) as Hspec.
  destruct (method_row results m) as [r|] eqn:Hrow; [|congruence].
  destruct Hspec as (_ & Hmeth & Hrate & Havg & Htag).
  assert (Hrate0 : (row_success_rate r == 0)%Q).
  { rewrite Hrate. unfold spec_success_rate. rewrite Hok.
    unfold Qeq. cbn. lia. }
  assert (Havg0 : (row_avg_latency r == 0)%Q).
  { rewrite Havg. unfold spec_avg_latency. rewrite Hok. reflexivity. }
  exists r. split.
  { unfold analyze_enhanced_results. apply list_elem_of_omap. eauto. }
  split; [exact Hmeth|]. split; [exact Hrate0|]. split; [exact Havg0|].
  unfold healthy. rewrite Htag, (tag_of_eq m _ 0 _ 0 Hrate0 Havg0).
  revert Hm. unfold methods. rewrite !elem_of_cons, elem_of_nil.
  intros [->|[->|[->|[]]]]; reflexivity.
Qed.

(** X17 on a single ASYNC request that timed out. *)
Lemma mode_without_success_witness :
  exists r,
    r ∈ analyze_enhanced_results
          [{| prompt := "Say hello"; response_text := "Timeout after 15s";
              latency_ms := 15000; success := false; method := "async";
              error_type := Some "timeout" |}]
    /\ row_method r = "async"
    /\ (row_success_rate r == 0)%Q
    /\ (row_avg_latency r == 0)%Q
    /\ healthy r = bool_decide ("async" = "async").
Proof.
  apply (mode_without_success
           [{| prompt := "Say hello"; response_text := "Timeout after 15s";
               latency_ms := 15000; success := false; method := "async";
               error_type := Some "timeout" |}] "async").
  - unfold methods. apply elem_of_cons. right. apply elem_of_cons. by left.
  - discriminate.
  - reflexivity.
Defined.

Lemma total_count_perm (m : string) (r1 r2 : list outcome) :
  r1 ≡ₚ r2 -> total_count m r1 = total_count m r2.
Proof.
  induction 1 as [|x l l' _ IH|x y l|l l' l'' _ IH1 _ IH2];
    cbn [total_count]; lia.
Qed.

Lemma successful_count_perm (m : string) (r1 r2 : list outcome) :
  r1 ≡ₚ r2 -> successful_count m r1 = successful_count m r2.
Proof.
  induction 1 as [|x l l' _ IH|x y l|l l' l'' _ IH1 _ IH2];
    cbn [successful_count]; lia.
Qed.

Lemma tag_of_rate (m : string) (rate rate' avg avg' : Q) :
  m <> "async" -> (rate == rate')%Q ->
  tag_of m rate avg = tag_of m rate' avg'.
Proof.
  intros Hm Hr. unfold tag_of.
  apply String.eqb_neq in Hm. rewrite Hm. cbn [andb].
  rewrite (Qeq_bool_eq rate rate' 100 Hr).
  rewrite (Qltb_eq 80 rate 80 rate' (Qeq_refl _) Hr).
  reflexivity.
Qed.

Lemma method_row_perm (m : string) (r1 r2 : list outcome) :
  r1 ≡ₚ r2 ->
  option_Forall2 same_verdict (method_row r1 m) (method_row r2 m).
Proof.
  intros Hperm.
  pose proof (method_row_spec r1 m) as H1.
  pose proof (method_row_spec r2 m) as H2.
  pose proof (total_count_perm m _ _ Hperm) as Ht.
  pose proof (successful_count_perm m _ _ Hperm) as Hs.
  destruct (method_row r1 m) as [a|]; destruct (method_row r2 m) as [b|].
  - constructor.
    destruct H1 as (_ & Hma & Hra & _ & Hta).
    destruct H2 as (_ & Hmb & Hrb & _ & Htb).
    assert (Hrate : (row_success_rate a == row_success_rate b)%Q).
    { rewrite Hra, Hrb. unfold spec_success_rate. rewrite Ht, Hs. reflexivity. }
    split; [congruence|]. split; [exact Hrate|].
    intros Hasync. rewrite Hta, Htb. apply tag_of_rate; congruence.
  - destruct H1 as (Hne & _). congruence.
  - destruct H2 as (Hne & _). congruence.
  - constructor.
Qed.

Lemma omap_Forall2 {A B} (R : B -> B -> Prop) (f g : A -> option B)
    (l : list A) :
  (forall x, option_Forall2 R (f x) (g x)) ->
  Forall2 R (omap f l) (omap g l).
Proof.
  intros H. induction l as [|x l IH]; [constructor|].
  cbn [omap list_omap]. destruct (H x); [constructor; assumption|exact IH].
Qed.

(** X18: the verdicts of the report do not depend on the order of the
    result sequence: two sequences with the same outcomes in different
    orders give rows for the same modes, in the same order, with the same
    success rates, and the SYNC and the CONCURRENT row carry the same
    tag. *)
Theorem verdicts_ignore_outcome_order (results1 results2 : list outcome) :
  results1 ≡ₚ results2 ->
  Forall2 same_verdict (analyze_enhanced_results results1)
    (analyze_enhanced_results results2).
Proof.
  intros Hperm. unfold analyze_enhanced_results.
  apply omap_Forall2. intros m. apply method_row_perm. exact Hperm.
Qed.

(** X18 on a SYNC and a CONCURRENT outcome, swapped. *)
Lemma verdicts_ignore_outcome_order_witness :
  Forall2 same_verdict
    (analyze_enhanced_results
       [hello_outcome "sync"; hello_outcome "concurrent"])
    (analyze_enhanced_results
       [hello_outcome "concurrent"; hello_outcome "sync"]).
Proof.
  apply (verdicts_ignore_outcome_order
           [hello_outcome "sync"; hello_outcome "concurrent"]
           [hello_outcome "concurrent"; hello_outcome "sync"]).
  apply perm_swap.
Defined.
